(** * kiwilemon: the Factur-X Lambda handler ([lambda_function.py])

    A shallow embedding of the request handler and of the PDF/A-3
    enhancement stage, with the properties of its specification.

    Modelling decisions, in one place:

    - Python [str] is [string]; [bytes] is [list byte].  Text is taken to be
      ASCII (one [ascii] per character); [str.lower] acts on [A-Z].
    - The local file system is a finite map from paths to contents that is
      threaded through the code.  It is reliable: [os.rename], [os.remove]
      and [open] raise only when the path they read is missing, and a write
      always succeeds.
    - External programs ([gs], [pdffonts]) and third-party libraries
      ([facturx], [json], ReportLab's font registration) are oracles of the
      environment [Env]: they may succeed or raise in any way.  A program's
      outcome is a function of its command line and of the contents of the
      file it is given as input, and it writes at most the file named by its
      [-sOutputFile=] argument.
    - Logging has no effect on results and is left out. *)

From Stdlib Require Import ZArith NArith List Ascii String Bool Lia DecimalString.
From Stdlib.Strings Require Import Byte.
From stdpp Require Import base option gmap strings list fin_maps.

Import ListNotations.

(** ** Python values *)

Definition bytes : Type := list byte.

(** An exception: its class and [str(e)]. *)
Record exn : Type := Exn { exn_class : string; exn_str : string }.

(** The result of a call: a raised exception or a value. *)
Definition result (A : Type) : Type := exn + A.

(** ** The base64 codec ([base64.b64encode], [base64.b64decode])

    The handler calls Python's codec; it is rendered here after
    [binascii]: RFC 4648 encoding, and the lenient decoder that skips
    characters outside the alphabet and stops at a complete pad. *)

Module Base64.

Definition alphabet : list ascii :=
  list_ascii_of_string
    "ABCDEFGHIJKLMNOPQRSTUVWXYZabcdefghijklmnopqrstuvwxyz0123456789+/".

Definition pad : ascii := "="%char.

Definition table_b2a (n : N) : ascii := nth (N.to_nat n) alphabet pad.

Fixpoint index_of (c : ascii) (l : list ascii) (i : N) : option N :=
  match l with
  | [] => None
  | x :: l' => if Ascii.eqb x c then Some i else index_of c l' (N.succ i)
  end.

Definition table_a2b (c : ascii) : option N := index_of c alphabet 0%N.

Definition u8 (b : byte) : N := Byte.to_N b.

Definition to_u8 (n : N) : byte :=
  match Byte.of_N (n mod 256) with
  | Some b => b
  | None => x00
  end.

(** The four 6-bit groups of a 24-bit group. *)
Definition sx0 (a : N) : N := N.shiftr a 2.
Definition sx1 (a b : N) : N :=
  N.lor (N.shiftl (N.land a 3) 4) (N.shiftr b 4).
Definition sx2 (b c : N) : N :=
  N.lor (N.shiftl (N.land b 15) 2) (N.shiftr c 6).
Definition sx3 (c : N) : N := N.land c 63.

Fixpoint b2a (data : bytes) : list ascii :=
  match data with
  | [] => []
  | [a] =>
      [table_b2a (sx0 (u8 a)); table_b2a (sx1 (u8 a) 0); pad; pad]
  | [a; b] =>
      [table_b2a (sx0 (u8 a)); table_b2a (sx1 (u8 a) (u8 b));
       table_b2a (sx2 (u8 b) 0); pad]
  | a :: b :: c :: rest =>
      table_b2a (sx0 (u8 a)) :: table_b2a (sx1 (u8 a) (u8 b)) ::
      table_b2a (sx2 (u8 b) (u8 c)) :: table_b2a (sx3 (u8 c)) :: b2a rest
  end.

(** [base64.b64encode(data).decode('utf-8')] *)
Definition b64encode (data : bytes) : string :=
  string_of_list_ascii (b2a data).

(** The decoder's loop state: position in the quad, the bits left over from
    the previous character, the pads seen since the last data character,
    and the bytes written. *)
Record dstate : Type := DState {
  quad_pos : N;
  leftchar : N;
  pads : N;
  out : bytes
}.

Definition binascii_error (msg : string) : exn := Exn "binascii.Error" msg.

Definition string_of_N (n : N) : string :=
  NilZero.string_of_uint (N.to_uint n).

Definition data_chars_message (written : nat) : string :=
  "Invalid base64-encoded string: number of data characters ("
  +:+ string_of_N (N.of_nat written / 3 * 4 + 1)
  +:+ ") cannot be 1 more than a multiple of 4".

Definition a2b_finish (st : dstate) : result bytes :=
  if (quad_pos st =? 0)%N then inr (out st)
  else if (quad_pos st =? 1)%N
       then inl (binascii_error (data_chars_message (length (out st))))
       else inl (binascii_error "Incorrect padding").

Definition a2b_data (st : dstate) (v : N) : dstate :=
  match quad_pos st with
  | 0%N => DState 1 v 0 (out st)
  | 1%N =>
      DState 2 (N.land v 15) 0
        (out st ++ [to_u8 (N.lor (N.shiftl (leftchar st) 2) (N.shiftr v 4))])
  | 2%N =>
      DState 3 (N.land v 3) 0
        (out st ++ [to_u8 (N.lor (N.shiftl (leftchar st) 4) (N.shiftr v 2))])
  | _ =>
      DState 0 0 0
        (out st ++ [to_u8 (N.lor (N.shiftl (leftchar st) 6) v)])
  end.

Fixpoint a2b_loop (s : list ascii) (st : dstate) : result bytes :=
  match s with
  | [] => a2b_finish st
  | c :: s' =>
      if Ascii.eqb c pad then
        if (2 <=? quad_pos st)%N then
          if (4 <=? quad_pos st + (pads st + 1))%N then inr (out st)
          else a2b_loop s'
                 (DState (quad_pos st) (leftchar st) (pads st + 1) (out st))
        else a2b_loop s' st
      else
        match table_a2b c with
        | None => a2b_loop s' st
        | Some v => a2b_loop s' (a2b_data st v)
        end
  end.

Definition is_ascii (c : ascii) : bool := (N_of_ascii c <? 128)%N.

(** [base64.b64decode(s)] for a [str] argument (no validation). *)
Definition b64decode (s : string) : result bytes :=
  let cs := list_ascii_of_string s in
  if forallb is_ascii cs then a2b_loop cs (DState 0 0 0 [])
  else inl (Exn "ValueError"
              "string argument should contain only ASCII characters").

End Base64.


(** ** Python strings *)

Module Py.

(** [str.isspace] on ASCII. *)
Definition isspace (c : ascii) : bool :=
  let n := N_of_ascii c in
  ((9 <=? n) && (n <=? 13) || (28 <=? n) && (n <=? 32))%N.

Definition lower_char (c : ascii) : ascii :=
  let n := N_of_ascii c in
  if ((65 <=? n) && (n <=? 90))%N then ascii_of_N (n + 32) else c.

(** [s.lower()] *)
Fixpoint lower (s : string) : string :=
  match s with
  | EmptyString => EmptyString
  | String c s' => String (lower_char c) (lower s')
  end.

Fixpoint startswith (s p : string) {struct p} : bool :=
  match p, s with
  | EmptyString, _ => true
  | String _ _, EmptyString => false
  | String a p', String b s' => Ascii.eqb a b && startswith s' p'
  end.

(** [needle in hay] *)
Fixpoint contains (needle hay : string) : bool :=
  startswith hay needle ||
  match hay with
  | EmptyString => false
  | String _ hay' => contains needle hay'
  end.

(** [s.split(sep)] for a one-character separator: never empty. *)
Fixpoint split_on (sep : ascii) (s : string) : list string :=
  match s with
  | EmptyString => [EmptyString]
  | String c s' =>
      if Ascii.eqb c sep then EmptyString :: split_on sep s'
      else match split_on sep s' with
           | [] => [String c EmptyString]
           | w :: ws => String c w :: ws
           end
  end.

(** [s.split()]: maximal runs of non-space characters. *)
Fixpoint split_ws (s : string) : list string :=
  match s with
  | EmptyString => []
  | String c s' =>
      if isspace c then split_ws s'
      else match s' with
           | EmptyString => [String c EmptyString]
           | String c' _ =>
               if isspace c' then String c EmptyString :: split_ws s'
               else match split_ws s' with
                    | [] => [String c EmptyString]
                    | w :: ws => String c w :: ws
                    end
           end
  end.

Fixpoint lstrip (s : string) : string :=
  match s with
  | EmptyString => EmptyString
  | String c s' => if isspace c then lstrip s' else s
  end.

(** [s.strip()] *)
Definition strip (s : string) : string :=
  String.rev (lstrip (String.rev (lstrip s))).

(** Truth value of a [str]. *)
Definition nonempty (s : string) : bool :=
  match s with EmptyString => false | _ => true end.

(** [hay.find(needle)]: the offset of the first occurrence. *)
Fixpoint find (needle hay : string) : option nat :=
  if startswith hay needle then Some 0%nat
  else match hay with
       | EmptyString => None
       | String _ hay' => option_map S (find needle hay')
       end.

(** [s[-1]], when there is one. *)
Fixpoint last_char (s : string) : option ascii :=
  match s with
  | EmptyString => None
  | String c EmptyString => Some c
  | String _ s' => last_char s'
  end.

(** [os.path.join(a, b)] for a relative [b]. *)
Definition path_join (a b : string) : string := a +:+ "/" +:+ b.

End Py.

(** ** JSON values, as [json.loads] returns them *)

#[warnings="-register-all"]
Inductive json : Type :=
  | JNull
  | JBool (b : bool)
  | JNum (n : Z)
  | JStr (s : string)
  | JArr (l : list json)
  | JObj (items : list (string * json)).
(* [JObj] holds the items of a [dict] in insertion order; keys are distinct,
   as in what [json.loads] returns. *)

(** [type(v).__name__] *)
Definition type_name (v : json) : string :=
  match v with
  | JNull => "NoneType"
  | JBool _ => "bool"
  | JNum _ => "int"
  | JStr _ => "str"
  | JArr _ => "list"
  | JObj _ => "dict"
  end.

(** [bool(v)] *)
Definition truthy (v : json) : bool :=
  match v with
  | JNull => false
  | JBool b => b
  | JNum n => negb (n =? 0)%Z
  | JStr s => Py.nonempty s
  | JArr l => match l with [] => false | _ => true end
  | JObj l => match l with [] => false | _ => true end
  end.

Fixpoint assoc (k : string) (items : list (string * json)) : option json :=
  match items with
  | [] => None
  | (k', v) :: rest => if String.eqb k' k then Some v else assoc k rest
  end.

(** [v.get(k, default)] *)
Definition py_get (v : json) (k : string) (default : json) : result json :=
  match v with
  | JObj items => inr (from_option (fun x => x) default (assoc k items))
  | _ => inl (Exn "AttributeError"
               ("'" +:+ type_name v +:+ "' object has no attribute 'get'"))
  end.

(** [len(v)] *)
Definition py_len (v : json) : result Z :=
  match v with
  | JStr s => inr (Z.of_nat (String.length s))
  | JArr l => inr (Z.of_nat (length l))
  | JObj l => inr (Z.of_nat (length l))
  | _ => inl (Exn "TypeError"
               ("object of type '" +:+ type_name v +:+ "' has no len()"))
  end.

(** [base64.b64decode(v)] *)
Definition b64decode_value (v : json) : result bytes :=
  match v with
  | JStr s => Base64.b64decode s
  | _ => inl (Exn "TypeError"
               ("argument should be a bytes-like object or ASCII string, not '"
                +:+ type_name v +:+ "'"))
  end.

(** ** The environment: libraries and programs outside the repository *)

(** What [subprocess.run(cmd, check=True)] does: it raises
    ([CalledProcessError] on a non-zero exit, [FileNotFoundError] when the
    program is missing) or returns; it prints [stdout]; and it may leave
    [written] in its output file, also when it fails. *)
Record outcome : Type := Outcome {
  raised : option exn;
  stdout : string;
  written : option bytes
}.

Record Env : Type := {
  (** [json.loads] *)
  json_loads : string -> result json;
  (** [facturx.generate_from_binary(pdf, xml, check_xsd, flavor, level)] *)
  generate_from_binary : bytes -> bytes -> json -> json -> json -> result bytes;
  (** [pdfmetrics.registerFont(TTFont(name, path))]: the exception, if any *)
  register_font : string -> string -> option exn;
  (** the file ReportLab's [canvas.save()] writes for title, author, subject *)
  canvas_save : string -> string -> string -> bytes;
  (** a program run on a command line and the contents of its input file *)
  run_process : list string -> option bytes -> outcome;
  (** the name [tempfile.NamedTemporaryFile] picks, without its suffix *)
  tmp_stem : string
}.

(** ** Stateful code: the file system, the calls made, and exceptions *)

(** A call that leaves the handler: kept in order, so that a property can
    say which processing took place. *)
Inductive call : Type :=
  | CallB64Decode (v : json)
  | CallGenerate (pdf xml : bytes)
  | CallTempFile (path : string)
  | CallRegisterFont (font_name : string)
  | CallCanvas (path : string)
  | CallRun (cmd : list string) (input : string)
  | CallOpen (path : string).

Record world : Type := World {
  files : gmap string bytes;
  calls : list call
}.

Definition M (A : Type) : Type := world -> result A * world.

Definition ret {A} (a : A) : M A := fun w => (inr a, w).

Definition raise {A} (e : exn) : M A := fun w => (inl e, w).

Definition bind {A B} (m : M A) (k : A -> M B) : M B :=
  fun w =>
    match m w with
    | (inr a, w') => k a w'
    | (inl e, w') => (inl e, w')
    end.

(** [try: m  except Exception as e: h e] *)
Definition try_except {A} (m : M A) (h : exn -> M A) : M A :=
  fun w =>
    match m w with
    | (inr a, w') => (inr a, w')
    | (inl e, w') => h e w'
    end.

(** [try: m  finally: c] *)
Definition try_finally {A} (m : M A) (c : M unit) : M A :=
  fun w =>
    match m w with
    | (r, w') =>
        match c w' with
        | (inr _, w'') => (r, w'')
        | (inl e, w'') => (inl e, w'')
        end
    end.

Definition lift {A} (r : result A) : M A := fun w => (r, w).

Definition log_call (c : call) : M unit :=
  fun w => (inr tt, World (files w) (calls w ++ [c])).

Declare Scope py_scope.
Delimit Scope py_scope with py.
Notation "x <- m ;; k" := (bind m (fun x => k))
  (at level 100, m at next level, right associativity) : py_scope.
Notation "m ;;; k" := (bind m (fun _ => k))
  (at level 100, right associativity) : py_scope.
Open Scope py_scope.

Fixpoint for_each {A} (l : list A) (body : A -> M unit) : M unit :=
  match l with
  | [] => ret tt
  | x :: l' => body x ;;; for_each l' body
  end.

Definition file_not_found (p : string) : exn :=
  Exn "FileNotFoundError"
    ("[Errno 2] No such file or directory: '" +:+ p +:+ "'").

Definition set_files (f : gmap string bytes) (w : world) : world :=
  World f (calls w).

(** [os.path.exists(p)] *)
Definition os_path_exists (p : string) : M bool :=
  fun w => (inr (bool_decide (is_Some (files w !! p))), w).

(** writing a whole file: [open(p, 'wb').write(data)] *)
Definition write_file (p : string) (data : bytes) : M unit :=
  fun w => (inr tt, set_files (<[p := data]> (files w)) w).

(** [open(p, 'rb').read()] *)
Definition read_file (p : string) : M bytes :=
  log_call (CallOpen p) ;;;
  fun w =>
    match files w !! p with
    | Some data => (inr data, w)
    | None => (inl (file_not_found p), w)
    end.

(** [os.rename(src, dst)] *)
Definition os_rename (src dst : string) : M unit :=
  fun w =>
    match files w !! src with
    | Some data => (inr tt, set_files (<[dst := data]> (delete src (files w))) w)
    | None => (inl (file_not_found src), w)
    end.

(** [os.remove(p)], [os.unlink(p)] *)
Definition os_remove (p : string) : M unit :=
  fun w =>
    match files w !! p with
    | Some _ => (inr tt, set_files (delete p (files w)) w)
    | None => (inl (file_not_found p), w)
    end.

(** ** The program *)

Record response : Type := Response {
  statusCode : Z;
  headers : list (string * string);
  (** the value handed to [json.dumps] *)
  body : json
}.

Definition json_headers : list (string * string) :=
  [ ("Content-Type", "application/json");
    ("Access-Control-Allow-Origin", "*") ].

Definition newline : ascii := "010"%char.

(** *** Parsing the output of [pdffonts] ([analyze_fonts_in_pdf], lines
    140-146) *)

Definition parse_line (non_embedded_fonts : gset string) (line : string)
    : gset string :=
  if Py.nonempty (Py.strip line) then
    let parts := Py.split_ws line in
    match parts !! 7%nat, parts !! 0%nat with
    | Some emb, Some name =>
        if Py.contains "no" (Py.lower emb)
        then {[ name ]} ∪ non_embedded_fonts
        else non_embedded_fonts
    | _, _ => non_embedded_fonts
    end
  else non_embedded_fonts.

Definition parse_pdffonts (font_details : string) : gset string :=
  fold_left parse_line (drop 2 (Py.split_on newline font_details)) ∅.

(** *** The final Ghostscript command ([enhance_pdf_for_compliance], lines
    193-209)

    Python leaves the order in which a set is iterated open; [elements]
    fixes one. *)

Definition substitute_directive (font : string) : string :=
  "-dSubstituteFontName=/" +:+ font +:+ "/LiberationSans".

Definition is_helvetica_or_arial (font : string) : bool :=
  Py.contains "helvetica" (Py.lower font) || Py.contains "arial" (Py.lower font).

Definition gs_base : list string :=
  [ "gs"; "-dPDFA=3"; "-dBATCH"; "-dNOPAUSE"; "-dQUIET";
    "-dPDFACompatibilityPolicy=1";
    "-dPDFSETTINGS=/prepress";
    "-sDEVICE=pdfwrite" ].

Definition add_substitution (gs_cmd : list string) (font : string)
    : list string :=
  if is_helvetica_or_arial font
  then gs_cmd ++ [substitute_directive font]
  else gs_cmd.

Definition final_gs_cmd (non_embedded_fonts : gset string)
    (final_pdf_path temp_in_path : string) : list string :=
  let gs_cmd :=
    if bool_decide (non_embedded_fonts = ∅) then gs_base
    else fold_left add_substitution (elements non_embedded_fonts) gs_base in
  gs_cmd ++ [ "-sOutputFile=" +:+ final_pdf_path; temp_in_path ].

Section Program.

Context (env : Env).

(** [subprocess.run(cmd, check=True)] for a command that reads [input] and
    writes [output] (when it has an output file); returns [stdout]. *)
Definition subprocess_run (cmd : list string) (input : string)
    (output : option string) : M string :=
  log_call (CallRun cmd input) ;;;
  fun w =>
    let o := run_process env cmd (files w !! input) in
    let w' :=
      match output, written o with
      | Some p, Some data => set_files (<[p := data]> (files w)) w
      | _, _ => w
      end in
    match raised o with
    | Some e => (inl e, w')
    | None => (inr (stdout o), w')
    end.

(** *** [register_liberation_fonts] (lines 22-49) *)

Definition font_dir : string := Py.path_join "python" "fonts".

Definition liberation_fonts : list (string * (string * string)) :=
  [ ("regular", ("LiberationSans",
                 Py.path_join font_dir "LiberationSans-Regular.ttf"));
    ("bold", ("LiberationSans-Bold",
              Py.path_join font_dir "LiberationSans-Bold.ttf"));
    ("italic", ("LiberationSans-Italic",
                Py.path_join font_dir "LiberationSans-Italic.ttf"));
    ("bolditalic", ("LiberationSans-BoldItalic",
                    Py.path_join font_dir "LiberationSans-BoldItalic.ttf")) ].

Fixpoint register_fonts (l : list (string * (string * string)))
    (font_mapping : list (string * string)) : M (list (string * string)) :=
  match l with
  | [] => ret font_mapping
  | (style, (font_name, font_path)) :: l' =>
      present <- os_path_exists font_path ;;
      if present : bool then
        log_call (CallRegisterFont font_name) ;;;
        match register_font env font_name font_path with
        | None => register_fonts l' (font_mapping ++ [(style, font_name)])
        | Some _ => register_fonts l' font_mapping
        end
      else register_fonts l' font_mapping
  end.

Definition register_liberation_fonts : M (list (string * string)) :=
  register_fonts liberation_fonts [].

(** *** [create_pdf_with_icc_profiles] (lines 51-109) *)

Definition icc_dir : string := Py.path_join "python" "icc_profiles".
Definition srgb_profile : string := Py.path_join icc_dir "sRGB.icc".
Definition gray_profile : string := Py.path_join icc_dir "Gray.icc".

Definition icc_cmd (output_path temp_output : string) : list string :=
  [ "gs"; "-dPDFA=3"; "-dBATCH"; "-dNOPAUSE"; "-dQUIET";
    "-dPDFACompatibilityPolicy=1";
    "-sColorConversionStrategy=UseDeviceIndependentColor";
    "-sOutputICCProfile=" +:+ srgb_profile;
    "-dPDFSETTINGS=/prepress";
    "-sDEVICE=pdfwrite";
    "-sOutputFile=" +:+ output_path;
    temp_output ].

(* Lines 64-67 test for the profiles only to log a warning.  The canvas
   writes its file at [c.save()]. *)
Definition create_pdf_with_icc_profiles (output_path : string) : M unit :=
  log_call (CallCanvas output_path) ;;;
  write_file output_path
    (canvas_save env "PDF with Color Profiles" "PDF Compliance Tool"
       "PDF/A-3 Compliant Document") ;;;
  has_srgb <- os_path_exists srgb_profile ;;
  has_gray <- os_path_exists gray_profile ;;
  if has_srgb && has_gray then
    let temp_output := output_path +:+ ".temp.pdf" in
    os_rename output_path temp_output ;;;
    try_except
      (subprocess_run (icc_cmd output_path temp_output) temp_output
         (Some output_path) ;;;
       os_remove temp_output)
      (fun _ => os_rename temp_output output_path)
  else ret tt.

(** *** [analyze_fonts_in_pdf] (lines 111-159) *)

Definition font_info_cmd (pdf_path : string) : list string :=
  [ "gs"; "-q"; "-dNODISPLAY"; "-dNOSAFER"; "-c";
    "(" +:+ pdf_path +:+
    ") (r) file runpdfbegin pdfdict /FontInfo knownoget { == } if pdfclose quit" ].

Definition analyze_fonts_in_pdf (pdf_path : string) : M (gset string) :=
  try_except
    (font_info <- subprocess_run (font_info_cmd pdf_path) pdf_path None ;;
     try_except
       (font_details <- subprocess_run ["pdffonts"; pdf_path] pdf_path None ;;
        ret (parse_pdffonts font_details))
       (fun _ => ret ∅))
    (fun _ => ret ∅).

(** *** [enhance_pdf_for_compliance] (lines 161-232)

    [NamedTemporaryFile(suffix='.pdf', delete=False)] gives the input path;
    the other paths are built from it. *)

Definition temp_in_path : string := tmp_stem env +:+ ".pdf".
Definition temp_out_path : string := temp_in_path +:+ ".enhanced.pdf".
Definition final_pdf_path : string := temp_in_path +:+ ".final.pdf".

Definition unlink_if_exists (path : string) : M unit :=
  present <- os_path_exists path ;;
  if present : bool
  then try_except (os_remove path) (fun _ => ret tt)
  else ret tt.

(** The stage, with the step that builds the profile-carrying PDF as a
    parameter: the source calls [create_pdf_with_icc_profiles] there. *)
Definition enhance_with (profile_step : string -> M unit)
    (input_pdf_bytes : bytes) : M bytes :=
  log_call (CallTempFile temp_in_path) ;;;
  write_file temp_in_path input_pdf_bytes ;;;
  try_finally
    (font_mapping <- register_liberation_fonts ;;
     non_embedded_fonts <- analyze_fonts_in_pdf temp_in_path ;;
     profile_step temp_out_path ;;;
     let gs_cmd := final_gs_cmd non_embedded_fonts final_pdf_path temp_in_path in
     try_except
       (subprocess_run gs_cmd temp_in_path (Some final_pdf_path) ;;;
        read_file final_pdf_path)
       (fun _ => ret input_pdf_bytes))
    (for_each [temp_in_path; temp_out_path; temp_in_path +:+ ".final.pdf"]
       unlink_if_exists).

Definition enhance_pdf_for_compliance : bytes -> M bytes :=
  enhance_with create_pdf_with_icc_profiles.

(** The stage with the profile step taken out, for comparison. *)
Definition enhance_without_profile_step : bytes -> M bytes :=
  enhance_with (fun _ => ret tt).

(** *** [lambda_handler] (lines 234-316) *)

(** [json.loads(v)] *)
Definition loads (v : json) : result json :=
  match v with
  | JStr s => json_loads env s
  | _ => inl (Exn "TypeError"
               ("the JSON object must be str, bytes or bytearray, not "
                +:+ type_name v))
  end.

Definition missing_data_response : response :=
  Response 400 json_headers (JObj [("error", JStr "Missing PDF or XML data")]).

Definition success_message : string :=
  "Factur-X PDF generated successfully with enhanced compliance".

Definition success_response (result_base64 : string) : response :=
  Response 200 json_headers
    (JObj [("pdfBase64", JStr result_base64); ("message", JStr success_message)]).

Definition failure_response (e : exn) : response :=
  Response 500 json_headers
    (JObj [("error", JStr ("Failed to generate Factur-X PDF: " +:+ exn_str e))]).

(* The log line 261 evaluates [len] of both payloads, which raises for a
   value that has no length. *)
Definition lambda_handler (event : json) : M response :=
  try_except
    (raw <- lift (py_get event "body" (JStr "{}")) ;;
     body <- lift (loads raw) ;;
     pdf_base64 <- lift (py_get body "pdfBase64" (JStr "")) ;;
     xml_base64 <- lift (py_get body "xmlBase64" (JStr "")) ;;
     check_xsd <- lift (py_get body "checkXsd" (JBool true)) ;;
     flavor <- lift (py_get body "flavor" (JStr "factur-x")) ;;
     level <- lift (py_get body "level" (JStr "en16931")) ;;
     if negb (truthy pdf_base64) || negb (truthy xml_base64) then
       ret missing_data_response
     else
       lift (py_len pdf_base64) ;;;
       lift (py_len xml_base64) ;;;
       log_call (CallB64Decode pdf_base64) ;;;
       pdf_binary <- lift (b64decode_value pdf_base64) ;;
       log_call (CallB64Decode xml_base64) ;;;
       xml_binary <- lift (b64decode_value xml_base64) ;;
       log_call (CallGenerate pdf_binary xml_binary) ;;;
       facturx_pdf <- lift (generate_from_binary env pdf_binary xml_binary
                              check_xsd flavor level) ;;
       enhanced_pdf <- enhance_pdf_for_compliance facturx_pdf ;;
       let result_base64 := Base64.b64encode enhanced_pdf in
       ret (success_response result_base64))
    (fun e => ret (failure_response e)).

(** *** The same code, read as functions of the oracles' answers *)

(** Line 84: the name the profile step moves its placeholder to. *)
Definition temp_output : string := temp_out_path +:+ ".temp.pdf".

(** What [analyze_fonts_in_pdf] returns for a file with these contents. *)
Definition analysis_result (pdf_path : string) (content : option bytes)
    : gset string :=
  match raised (run_process env (font_info_cmd pdf_path) content) with
  | Some _ => ∅
  | None =>
      let o := run_process env ["pdffonts"; pdf_path] content in
      match raised o with
      | Some _ => ∅
      | None => parse_pdffonts (stdout o)
      end
  end.

(** The outcome of the final Ghostscript run on an input. *)
Definition final_outcome (input : bytes) : outcome :=
  run_process env
    (final_gs_cmd (analysis_result temp_in_path (Some input))
       final_pdf_path temp_in_path)
    (Some input).

(** The final rewrite fails: the program raises (it is missing, or exits
    non-zero), or it leaves no file to read back. *)
Definition final_rewrite_fails (w : world) (input : bytes) : Prop :=
  is_Some (raised (final_outcome input)) \/
  (written (final_outcome input) = None /\ files w !! final_pdf_path = None).

(** The bytes the stage returns; [stale] is what the final path held before. *)
Definition enhanced_bytes (stale : option bytes) (input : bytes) : bytes :=
  let o := final_outcome input in
  match raised o with
  | Some _ => input
  | None =>
      match written o with
      | Some data => data
      | None => match stale with Some data => data | None => input end
      end
  end.

(** Line 237: the parsed body of a request. *)
Definition request_body (event : json) : result json :=
  match py_get event "body" (JStr "{}") with
  | inl e => inl e
  | inr raw => loads raw
  end.

(** The handler on a request that passed validation (lines 261-298). *)
Definition process (pdf_base64 xml_base64 check_xsd flavor level : json)
    : M response :=
  try_except
    (lift (py_len pdf_base64) ;;;
     lift (py_len xml_base64) ;;;
     log_call (CallB64Decode pdf_base64) ;;;
     pdf_binary <- lift (b64decode_value pdf_base64) ;;
     log_call (CallB64Decode xml_base64) ;;;
     xml_binary <- lift (b64decode_value xml_base64) ;;
     log_call (CallGenerate pdf_binary xml_binary) ;;;
     facturx_pdf <- lift (generate_from_binary env pdf_binary xml_binary
                            check_xsd flavor level) ;;
     enhanced_pdf <- enhance_pdf_for_compliance facturx_pdf ;;
     ret (success_response (Base64.b64encode enhanced_pdf)))
    (fun e => ret (failure_response e)).

End Program.

(** [body.get(k, default)] on the items of a JSON object. *)
Definition option_value (items : list (string * json)) (k : string)
    (default : json) : json :=
  from_option (fun x => x) default (assoc k items).

(** The value the handler binds to [pdf_base64] or [xml_base64]. *)
Definition payload (items : list (string * json)) (k : string) : json :=
  option_value items k (JStr "").

(** A field of a response's JSON body. *)
Definition response_field (r : response) (k : string) : option json :=
  match body r with
  | JObj items => assoc k items
  | _ => None
  end.

(** The request's body holds a non-empty string under [k]. *)
Definition has_nonempty_string (body : result json) (k : string) : Prop :=
  exists items s,
    body = inr (JObj items) /\ assoc k items = Some (JStr s) /\ s <> "".

(** The request's body is there and is not valid JSON. *)
Definition invalid_json_body (env : Env) (event : json) : Prop :=
  exists raw e,
    py_get event "body" (JStr "{}") = inr (JStr raw) /\
    json_loads env raw = inl e.

(** Both payloads are non-empty strings and [base64.b64decode] raises on
    one of them. *)
Definition undecodable_base64_payload (env : Env) (event : json) : Prop :=
  exists items s1 s2,
    request_body env event = inr (JObj items) /\
    payload items "pdfBase64" = JStr s1 /\ s1 <> "" /\
    payload items "xmlBase64" = JStr s2 /\ s2 <> "" /\
    ((exists e, Base64.b64decode s1 = inl e) \/
     (exists e, Base64.b64decode s2 = inl e)).

(** A character of the base64 alphabet. *)
Definition is_data (c : ascii) : bool :=
  match Base64.table_a2b c with
  | Some _ => true
  | None => false
  end.

Fixpoint skip_data (cs : list ascii) : list ascii :=
  match cs with
  | [] => []
  | c :: cs' => if is_data c then skip_data cs' else cs
  end.

(** Valid base64 (RFC 4648): characters of the alphabet, then at most two
    pads, four characters to a group.  The handler's decoder is more
    lenient than this. *)
Definition valid_base64 (s : string) : bool :=
  let cs := list_ascii_of_string s in
  (length cs mod 4 =? 0)%nat &&
  match skip_data cs with
  | [] => true
  | [p] => Ascii.eqb p Base64.pad
  | [p; q] => Ascii.eqb p Base64.pad && Ascii.eqb q Base64.pad
  | _ => false
  end.

(** Both payloads are non-empty strings and one is not valid base64. *)
Definition not_valid_base64_payload (env : Env) (event : json) : Prop :=
  exists items s1 s2,
    request_body env event = inr (JObj items) /\
    payload items "pdfBase64" = JStr s1 /\ s1 <> "" /\
    payload items "xmlBase64" = JStr s2 /\ s2 <> "" /\
    (valid_base64 s1 = false \/ valid_base64 s2 = false).

(** The rule for invalid encodings read literally: a body that is not
    valid JSON, or a non-empty payload that is not valid base64, always
    gets a 500. *)
Definition answers_500_to_every_invalid_encoding : Prop :=
  forall (env : Env) (event : json) (w : world),
    invalid_json_body env event \/ not_valid_base64_payload env event ->
    exists r w',
      lambda_handler env event w = (inr r, w') /\ statusCode r = 500%Z.

(** The validation rule read literally: whenever a request's body lacks a
    non-empty string under one of the two keys, the response is a 400. *)
Definition rejects_every_request_lacking_a_payload : Prop :=
  forall (env : Env) (event : json) (w : world),
    ~ has_nonempty_string (request_body env event) "pdfBase64" \/
    ~ has_nonempty_string (request_body env event) "xmlBase64" ->
    exists r w',
      lambda_handler env event w = (inr r, w') /\ statusCode r = 400%Z.

(** ** Predicates on stateful code *)

(** What a step in the place of [create_pdf_with_icc_profiles] must do for
    the stage to go on: return, touch only its output and its scratch file,
    and leave no scratch file of its own. *)
Definition profile_step_ok (step : string -> M unit) : Prop :=
  forall out w, exists w',
    step out w = (inr tt, w') /\
    (forall p, p <> out -> p <> out +:+ ".temp.pdf" ->
               files w' !! p = files w !! p) /\
    (files w' !! (out +:+ ".temp.pdf") = None \/
     files w' !! (out +:+ ".temp.pdf") = files w !! (out +:+ ".temp.pdf")).

(** The file a call reads. *)
Definition reads (c : call) : option string :=
  match c with
  | CallRun _ input => Some input
  | CallOpen p => Some p
  | _ => None
  end.

Definition no_read_of (path : string) (c : call) : Prop :=
  reads c <> Some path.

(** The calls made between two worlds. *)
Definition new_calls (w w' : world) : list call :=
  drop (length (calls w)) (calls w').

(** Every call [m] makes satisfies [Q]. *)
Definition calls_only (Q : call -> Prop) {A} (m : M A) : Prop :=
  forall w, exists new,
    calls (snd (m w)) = calls w ++ new /\ Forall Q new.

(** ** The table of [pdffonts], read by its headings

    The specification's reading of the tool's output, to compare with
    [parse_pdffonts]: the embedding status of a row is the text under the
    [emb] heading. *)

Definition emb_column (header row : string) : option string :=
  match Py.find "emb" header with
  | Some off => Some (Py.strip (String.substring off 3 row))
  | None => None
  end.

Definition reads_negative (header row : string) : bool :=
  match emb_column header row with
  | Some v => String.eqb (Py.lower v) "no"
  | None => false
  end.

Definition column_row (header : string) (acc : gset string) (row : string)
    : gset string :=
  if Py.nonempty (Py.strip row) && reads_negative header row then
    match Py.split_ws row with
    | name :: _ => {[ name ]} ∪ acc
    | [] => acc
    end
  else acc.

Definition non_embedded_by_column (font_details : string) : gset string :=
  match Py.split_on newline font_details with
  | header :: _ :: rows => fold_left (column_row header) rows ∅
  | _ => ∅
  end.

(** ** Sample requests and environments *)

Definition nl : string := String newline "".

(** Two rows as [pdffonts] prints them: a Type 1 font that is not embedded
    and an embedded CID font without a ToUnicode map. *)
Definition pdffonts_sample : string :=
  "name                                 type              encoding         emb sub uni object ID" +:+ nl +:+
  "------------------------------------ ----------------- ---------------- --- --- --- ---------" +:+ nl +:+
  "Helvetica                            Type 1            WinAnsi          no  no  no       8  0" +:+ nl +:+
  "ABCDEF+Foo                           CID Type 0C       Identity-H       yes yes no      12  0" +:+ nl.

Definition quoted (s : string) : string :=
  String "034"%char s +:+ String "034"%char "".

(** [{"pdfBase64": <pdf>, "xmlBase64": <xml>}] *)
Definition request_text (pdf xml : string) : string :=
  "{" +:+ quoted "pdfBase64" +:+ ": " +:+ pdf +:+ ", "
      +:+ quoted "xmlBase64" +:+ ": " +:+ xml +:+ "}".

Definition request_value (pdf xml : json) : json :=
  JObj [("pdfBase64", pdf); ("xmlBase64", xml)].

(** The requests the examples use, with the value [json.loads] gives each. *)
Definition sample_table : list (string * json) :=
  [ ("{}", JObj []);
    ("[]", JArr []);
    (request_text (quoted "JVBERg==") (quoted "PHgvPg=="),
     request_value (JStr "JVBERg==") (JStr "PHgvPg=="));
    (request_text (quoted "JVBER") (quoted "PHgvPg=="),
     request_value (JStr "JVBER") (JStr "PHgvPg=="));
    (request_text "5" (quoted "PHgvPg=="),
     request_value (JNum 5) (JStr "PHgvPg==")) ].

Definition table_loads (table : list (string * json)) (s : string)
    : result json :=
  match assoc s table with
  | Some v => inr v
  | None => inl (Exn "JSONDecodeError"
                   "Expecting value: line 1 column 1 (char 0)")
  end.

Definition event_with_body (text : string) : json :=
  JObj [("body", JStr text)].

(** No program is installed. *)
Definition tools_missing (cmd : list string) (input : option bytes) : outcome :=
  Outcome
    (Some (Exn "FileNotFoundError" "[Errno 2] No such file or directory: 'gs'"))
    "" None.

(** Both inspection programs run; [pdffonts] prints [pdffonts_sample]. *)
Definition tools_inspect (cmd : list string) (input : option bytes) : outcome :=
  match cmd with
  | "pdffonts" :: _ => Outcome None pdffonts_sample None
  | "gs" :: "-q" :: _ => Outcome None "" None
  | _ => tools_missing cmd input
  end.

(** Every program runs: Ghostscript writes its input back with a newline
    after it. *)
Definition tools_rewrite (cmd : list string) (input : option bytes) : outcome :=
  match cmd with
  | "pdffonts" :: _ => Outcome None pdffonts_sample None
  | "gs" :: "-q" :: _ => Outcome None "" None
  | _ => Outcome None "" (Some (from_option (fun b => b) [] input ++ [x0a]))
  end.

Definition embed_ok (pdf xml : bytes) (check_xsd flavor level : json)
    : result bytes := inr pdf.

Definition embed_fails (pdf xml : bytes) (check_xsd flavor level : json)
    : result bytes :=
  inl (Exn "Exception"
         "The XML file is not valid against the official XML Schema Definition").

Definition sample_env
    (embed : bytes -> bytes -> json -> json -> json -> result bytes)
    (run : list string -> option bytes -> outcome) : Env :=
  {| json_loads := table_loads sample_table;
     generate_from_binary := embed;
     register_font := fun _ _ => None;
     canvas_save := fun _ _ _ => [x25; x50; x44; x46];
     run_process := run;
     tmp_stem := "/tmp/tmpk3x9q2ab" |}.

Definition empty_world : world := World ∅ [].

(** A deployment that bundles both ICC profiles. *)
Definition profiles_world : world :=
  World (<[srgb_profile := [x00]]> (<[gray_profile := [x00]]> ∅)) [].

Definition pdf_magic : bytes := [x25; x50; x44; x46].

(** A payload that is not valid base64 (a star, a blank, data after the
    pad) and that [base64.b64decode] accepts all the same. *)
Definition lenient_payload : string := "JV*BE Rg==AAAA".

Definition lenient_text : string :=
  request_text (quoted lenient_payload) (quoted "PHgvPg==").

Definition lenient_env : Env :=
  {| json_loads :=
       table_loads
         [(lenient_text,
           request_value (JStr lenient_payload) (JStr "PHgvPg=="))];
     generate_from_binary := embed_ok;
     register_font := fun _ _ => None;
     canvas_save := fun _ _ _ => pdf_magic;
     run_process := tools_missing;
     tmp_stem := "/tmp/tmpk3x9q2ab" |}.

(** ** Checks used by the proofs about the codec *)

Definition table_ok (n : N) : bool :=
  match Base64.table_a2b (Base64.table_b2a n) with
  | Some m => (m =? n)%N
  | None => false
  end
  && negb (Ascii.eqb (Base64.table_b2a n) Base64.pad)
  && Base64.is_ascii (Base64.table_b2a n).

(** The bit identities the decoder relies on, for two neighbouring bytes. *)
Definition first_ok (a b : N) : bool :=
  ((N.lor (N.shiftl (Base64.sx0 a) 2) (N.shiftr (Base64.sx1 a b) 4) mod 256 =? a)
   && (N.land (Base64.sx1 a b) 15 =? N.shiftr b 4)
   && (Base64.sx0 a <? 64) && (Base64.sx1 a b <? 64))%N.

Definition second_ok (b c : N) : bool :=
  ((N.lor (N.shiftl (N.shiftr b 4) 4) (N.shiftr (Base64.sx2 b c) 2) mod 256 =? b)
   && (N.land (Base64.sx2 b c) 3 =? N.shiftr c 6)
   && (Base64.sx2 b c <? 64)
   && (N.lor (N.shiftl (N.shiftr c 6) 6) (Base64.sx3 c) mod 256 =? c)
   && (Base64.sx3 c <? 64))%N.

(** ** Further definitions, for the properties beyond the claims *)

(** The file ReportLab writes at [c.save()] (lines 70-79). *)
Definition placeholder (env : Env) : bytes :=
  canvas_save env "PDF with Color Profiles" "PDF Compliance Tool"
    "PDF/A-3 Compliant Document".

(** The four paths a request works on: the stage's three and the profile
    step's scratch file. *)
Definition working_paths (env : Env) : list string :=
  [temp_in_path env; temp_out_path env; final_pdf_path env; temp_output env].

(** [m] changes no file outside [T]. *)
Definition touches_only (T : string -> Prop) {A} (m : M A) : Prop :=
  forall w p, ~ T p -> files (snd (m w)) !! p = files w !! p.

(** A call that runs a program runs [gs] or [pdffonts]. *)
Definition runs_gs_or_pdffonts (c : call) : Prop :=
  match c with
  | CallRun cmd _ =>
      exists args, cmd = "gs" :: args \/ cmd = "pdffonts" :: args
  | _ => True
  end.

Definition is_decode (c : call) : Prop :=
  match c with
  | CallB64Decode _ => True
  | _ => False
  end.

(** [s] is made of white space only. *)
Fixpoint all_space (s : string) : bool :=
  match s with
  | EmptyString => true
  | String c s' => Py.isspace c && all_space s'
  end.

(** [c in s] *)
Fixpoint has_char (c : ascii) (s : string) : bool :=
  match s with
  | EmptyString => false
  | String a s' => Ascii.eqb a c || has_char c s'
  end.

(** The test of lines 143-146 on one line: it has at least eight words, the
    eighth contains [no] in any case, and [font] is the first. *)
Definition reported_by (line font : string) : Prop :=
  exists emb,
    Py.split_ws line !! 0%nat = Some font /\
    Py.split_ws line !! 7%nat = Some emb /\
    Py.contains "no" (Py.lower emb) = true.

(** The environment with another font registration. *)
Definition with_register_font (env : Env)
    (rf : string -> string -> option exn) : Env :=
  {| json_loads := json_loads env;
     generate_from_binary := generate_from_binary env;
     register_font := rf;
     canvas_save := canvas_save env;
     run_process := run_process env;
     tmp_stem := tmp_stem env |}.

(** The defaults of lines 244-246, as items of a body. *)
Definition default_options : list (string * json) :=
  [ ("checkXsd", JBool true);
    ("flavor", JStr "factur-x");
    ("level", JStr "en16931") ].

(** A request that spells the three options out, beside the one that leaves
    them out. *)
Definition options_text : string :=
  "{" +:+ quoted "pdfBase64" +:+ ": " +:+ quoted "JVBERg==" +:+ ", "
      +:+ quoted "xmlBase64" +:+ ": " +:+ quoted "PHgvPg==" +:+ ", "
      +:+ quoted "checkXsd" +:+ ": true, "
      +:+ quoted "flavor" +:+ ": " +:+ quoted "factur-x" +:+ ", "
      +:+ quoted "level" +:+ ": " +:+ quoted "en16931" +:+ "}".

Definition options_table : list (string * json) :=
  [ (request_text (quoted "JVBERg==") (quoted "PHgvPg=="),
     request_value (JStr "JVBERg==") (JStr "PHgvPg=="));
    (options_text,
     JObj ([("pdfBase64", JStr "JVBERg=="); ("xmlBase64", JStr "PHgvPg==")]
           ++ default_options)) ].

Definition options_env : Env :=
  {| json_loads := table_loads options_table;
     generate_from_binary := embed_ok;
     register_font := fun _ _ => None;
     canvas_save := fun _ _ _ => pdf_magic;
     run_process := tools_missing;
     tmp_stem := "/tmp/tmpk3x9q2ab" |}.


(** * Properties *)

(** Symbolic execution of monadic code. *)
Ltac exec :=
  repeat (progress
    (unfold bind, try_except, try_finally, ret, raise, lift, log_call,
       subprocess_run, os_path_exists, write_file, read_file, os_rename,
       os_remove, set_files;
     cbn [files calls fst snd])).

Ltac split_andb H :=
  repeat (apply andb_prop in H as [H ?]);
  repeat match goal with
         | E : (_ =? _)%N = true |- _ => apply N.eqb_eq in E
         | E : (_ <? _)%N = true |- _ => apply N.ltb_lt in E
         end.

(** ** The codec: decoding inverts encoding *)

Section Base64Facts.

Import Base64.

Lemma forallb_below (n : nat) (P : N -> bool) :
  forallb P (map N.of_nat (seq 0 n)) = true ->
  forall x : N, (x < N.of_nat n)%N -> P x = true.
Proof.
  intros H x Hx.
  rewrite forallb_forall in H. apply H.
  apply in_map_iff. exists (N.to_nat x). split; [apply N2Nat.id|].
  apply in_seq. lia.
Qed.

Lemma u8_lt (b : byte) : (u8 b < N.of_nat 256)%N.
Proof. unfold u8. pose proof (Byte.to_N_bounded b). lia. Qed.

Lemma to_u8_mod (n : N) (b : byte) : (n mod 256 = u8 b)%N -> to_u8 n = b.
Proof. intros H. unfold to_u8, u8 in *. now rewrite H, Byte.of_to_N. Qed.

Lemma u8_x00 : u8 x00 = 0%N.
Proof. reflexivity. Qed.

Lemma table_ok_all (n : N) : (n < 64)%N -> table_ok n = true.
Proof. apply (forallb_below 64). vm_compute. reflexivity. Qed.

Lemma table_roundtrip (n : N) :
  (n < 64)%N ->
  table_a2b (table_b2a n) = Some n /\
  Ascii.eqb (table_b2a n) pad = false /\
  is_ascii (table_b2a n) = true.
Proof.
  intros H. apply table_ok_all in H. unfold table_ok in H.
  apply andb_prop in H as [H H3]. apply andb_prop in H as [H1 H2].
  destruct (table_a2b (table_b2a n)) as [m|]; [|discriminate].
  apply N.eqb_eq in H1. subst m.
  apply negb_true_iff in H2. auto.
Qed.

Lemma first_ok_all (a b : N) :
  (a < 256)%N -> (b < 256)%N -> first_ok a b = true.
Proof.
  intros Ha Hb.
  assert (H : forallb (fun a => forallb (first_ok a) (map N.of_nat (seq 0 256)))
                (map N.of_nat (seq 0 256)) = true) by (vm_compute; reflexivity).
  apply (forallb_below 256 _ H) in Ha.
  now apply (forallb_below 256 _ Ha).
Qed.

Lemma second_ok_all (b c : N) :
  (b < 256)%N -> (c < 256)%N -> second_ok b c = true.
Proof.
  intros Hb Hc.
  assert (H : forallb (fun b => forallb (second_ok b) (map N.of_nat (seq 0 256)))
                (map N.of_nat (seq 0 256)) = true) by (vm_compute; reflexivity).
  apply (forallb_below 256 _ H) in Hb.
  now apply (forallb_below 256 _ Hb).
Qed.

Lemma sextets_lt (a b c : byte) :
  (sx0 (u8 a) < 64 /\ sx1 (u8 a) (u8 b) < 64 /\
   sx2 (u8 b) (u8 c) < 64 /\ sx3 (u8 c) < 64)%N.
Proof.
  pose proof (first_ok_all _ _ (u8_lt a) (u8_lt b)) as H1.
  pose proof (second_ok_all _ _ (u8_lt b) (u8_lt c)) as H2.
  unfold first_ok in H1. unfold second_ok in H2.
  split_andb H1. split_andb H2. auto.
Qed.

Lemma a2b_loop_data (n : N) (s : list ascii) (st : dstate) :
  (n < 64)%N ->
  a2b_loop (table_b2a n :: s) st = a2b_loop s (a2b_data st n).
Proof.
  intros H. destruct (table_roundtrip n H) as (Ht & Hp & _).
  cbn [a2b_loop]. now rewrite Hp, Ht.
Qed.

(** After the first two characters of a group the first byte is out. *)
Lemma a2b_two (a b : byte) (s : list ascii) (lc p : N) (o : bytes) :
  a2b_loop (table_b2a (sx0 (u8 a)) :: table_b2a (sx1 (u8 a) (u8 b)) :: s)
    (DState 0 lc p o) =
  a2b_loop s (DState 2 (N.shiftr (u8 b) 4) 0 (o ++ [a])).
Proof.
  destruct (sextets_lt a b b) as (H0 & H1 & _).
  rewrite !a2b_loop_data by assumption.
  pose proof (first_ok_all _ _ (u8_lt a) (u8_lt b)) as H.
  unfold first_ok in H. split_andb H.
  unfold a2b_data; cbn [quad_pos leftchar out].
  f_equal. f_equal; [assumption|].
  f_equal. f_equal. now apply to_u8_mod.
Qed.

(** The third character completes the second byte. *)
Lemma a2b_third (b c : byte) (s : list ascii) (o : bytes) :
  a2b_loop (table_b2a (sx2 (u8 b) (u8 c)) :: s)
    (DState 2 (N.shiftr (u8 b) 4) 0 o) =
  a2b_loop s (DState 3 (N.shiftr (u8 c) 6) 0 (o ++ [b])).
Proof.
  destruct (sextets_lt b b c) as (_ & _ & H2 & _).
  rewrite a2b_loop_data by assumption.
  pose proof (second_ok_all _ _ (u8_lt b) (u8_lt c)) as H.
  unfold second_ok in H. split_andb H.
  unfold a2b_data; cbn [quad_pos leftchar out].
  f_equal. f_equal; [assumption|].
  f_equal. f_equal. now apply to_u8_mod.
Qed.

(** The fourth character completes the group. *)
Lemma a2b_fourth (c : byte) (s : list ascii) (o : bytes) :
  a2b_loop (table_b2a (sx3 (u8 c)) :: s)
    (DState 3 (N.shiftr (u8 c) 6) 0 o) =
  a2b_loop s (DState 0 0 0 (o ++ [c])).
Proof.
  destruct (sextets_lt c c c) as (_ & _ & _ & H3).
  rewrite a2b_loop_data by assumption.
  pose proof (second_ok_all _ _ (u8_lt c) (u8_lt c)) as H.
  unfold second_ok in H. split_andb H.
  unfold a2b_data; cbn [quad_pos leftchar out].
  f_equal. f_equal. f_equal. f_equal. now apply to_u8_mod.
Qed.

(** Induction over a byte string, three bytes at a time. *)
Lemma bytes_ind3 (P : bytes -> Prop) :
  P [] -> (forall a, P [a]) -> (forall a b, P [a; b]) ->
  (forall a b c rest, P rest -> P (a :: b :: c :: rest)) ->
  forall data, P data.
Proof.
  intros H0 H1 H2 H3 data.
  enough (H : P data /\ (forall a, P (a :: data)) /\
              (forall a b, P (a :: b :: data))) by apply H.
  induction data as [|x data (IH0 & IH1 & IH2)]; [auto|].
  repeat split; auto.
Qed.

Lemma a2b_loop_b2a (data : bytes) :
  forall (lc p : N) (o : bytes),
    a2b_loop (b2a data) (DState 0 lc p o) = inr (o ++ data).
Proof.
  induction data as [|a|a b|a b c rest IH] using bytes_ind3; intros lc p o.
  - cbn. now rewrite app_nil_r.
  - cbn [b2a]. rewrite <- u8_x00, a2b_two. reflexivity.
  - cbn [b2a]. rewrite a2b_two, <- u8_x00, a2b_third.
    cbn. now rewrite <- app_assoc.
  - cbn [b2a]. rewrite a2b_two, a2b_third, a2b_fourth, IH.
    now rewrite <- !app_assoc.
Qed.

Lemma b2a_is_ascii (data : bytes) : forallb is_ascii (b2a data) = true.
Proof.
  assert (Hp : is_ascii pad = true) by reflexivity.
  assert (Ht : forall n, (n < 64)%N -> is_ascii (table_b2a n) = true)
    by (intros n Hn; apply table_roundtrip, Hn).
  induction data as [|a|a b|a b c rest IH] using bytes_ind3; cbn [b2a forallb].
  - reflexivity.
  - destruct (sextets_lt a x00 x00) as (H0 & H1 & _).
    rewrite u8_x00 in H1. now rewrite !Ht, Hp.
  - destruct (sextets_lt a b x00) as (H0 & H1 & H2 & _).
    rewrite u8_x00 in H2. now rewrite !Ht, Hp.
  - destruct (sextets_lt a b c) as (H0 & H1 & H2 & H3).
    now rewrite !Ht, IH.
Qed.

(** [b64decode(b64encode(data)) == data] *)
Lemma b64decode_b64encode (data : bytes) :
  b64decode (b64encode data) = inr data.
Proof.
  unfold b64decode, b64encode.
  rewrite list_ascii_of_string_of_list_ascii, b2a_is_ascii.
  apply (a2b_loop_b2a data 0%N 0%N []).
Qed.

End Base64Facts.

(** ** Strings: lengths, last characters, substrings *)

Lemma app_nil_s (t : string) : "" +:+ t = t.
Proof. reflexivity. Qed.

Lemma app_cons_s (c : ascii) (s t : string) :
  String c s +:+ t = String c (s +:+ t).
Proof. reflexivity. Qed.

Lemma length_app (s t : string) :
  String.length (s +:+ t) = String.length s + String.length t.
Proof.
  induction s as [|c s IH]; [reflexivity|].
  rewrite app_cons_s. cbn. now rewrite IH.
Qed.

Lemma app_length_ne (s t u : string) :
  String.length t <> String.length u -> s +:+ t <> s +:+ u.
Proof. intros H E. apply H. apply String.app_inj in E. now subst. Qed.

Lemma app_ne_self (s t : string) : String.length t <> 0 -> s +:+ t <> s.
Proof.
  intros H E. apply (f_equal String.length) in E.
  rewrite length_app in E. lia.
Qed.

Lemma last_char_app (s t : string) :
  t <> EmptyString -> Py.last_char (s +:+ t) = Py.last_char t.
Proof.
  intros Ht. induction s as [|c s IH]; [reflexivity|].
  rewrite app_cons_s. cbn. rewrite IH.
  destruct (s +:+ t) eqn:E; [|reflexivity].
  destruct s; [rewrite app_nil_s in E; contradiction | discriminate].
Qed.

Lemma app_assoc_s (s t u : string) : (s +:+ t) +:+ u = s +:+ (t +:+ u).
Proof.
  induction s as [|c s IH]; [reflexivity|].
  now rewrite !app_cons_s, IH.
Qed.

Lemma app_inj_r (s1 s2 t : string) : s1 +:+ t = s2 +:+ t -> s1 = s2.
Proof.
  revert s2. induction s1 as [|c s1 IH]; intros [|c2 s2] E.
  - reflexivity.
  - apply (f_equal String.length) in E.
    rewrite app_nil_s, app_cons_s in E. cbn in E. rewrite length_app in E. lia.
  - apply (f_equal String.length) in E.
    rewrite app_nil_s, app_cons_s in E. cbn in E. rewrite length_app in E. lia.
  - rewrite !app_cons_s in E. injection E as -> E. f_equal. now apply IH.
Qed.

Lemma startswith_spec (s p : string) :
  Py.startswith s p = true <-> exists post, s = p +:+ post.
Proof.
  revert s. induction p as [|a p IH]; intros s.
  - cbn. split; [intros _; now exists s | reflexivity].
  - destruct s as [|b s]; cbn [Py.startswith].
    + split; [discriminate | intros [post E]; discriminate E].
    + rewrite andb_true_iff, IH. split.
      * intros [E [post ->]]. apply Ascii.eqb_eq in E. subst b.
        now exists post.
      * intros [post E]. rewrite app_cons_s in E. injection E as -> ->.
        split; [apply Ascii.eqb_refl | now exists post].
Qed.

(** [needle in hay] holds exactly when [needle] is a substring of [hay]. *)
Lemma contains_spec (needle hay : string) :
  Py.contains needle hay = true <->
  exists pre post, hay = pre +:+ needle +:+ post.
Proof.
  induction hay as [|c hay IH]; cbn [Py.contains];
    rewrite orb_true_iff, startswith_spec.
  - split.
    + intros [[post E]|H]; [|discriminate]. now exists "", post.
    + intros (pre & post & E). left.
      destruct pre; [now exists post | discriminate E].
  - rewrite IH. split.
    + intros [[post E]|(pre & post & E)].
      * now exists "", post.
      * exists (String c pre), post. now rewrite app_cons_s, E.
    + intros (pre & post & E). destruct pre as [|c' pre].
      * left. now exists post.
      * right. rewrite app_cons_s in E. injection E as -> ->.
        now exists pre, post.
Qed.

Lemma contains_suffix (pre s : string) : Py.contains s (pre +:+ s) = true.
Proof.
  apply contains_spec. exists pre, "".
  f_equal. clear. induction s as [|c s IH]; [reflexivity|].
  now rewrite app_cons_s, <- IH.
Qed.

(** ** The paths of the enhancement stage are pairwise distinct *)

Section Paths.
Context (env : Env).

Lemma temp_out_ne_in : temp_out_path env <> temp_in_path env.
Proof. unfold temp_out_path. apply app_ne_self. discriminate. Qed.

Lemma final_ne_in : final_pdf_path env <> temp_in_path env.
Proof. unfold final_pdf_path. apply app_ne_self. discriminate. Qed.

Lemma final_ne_out : final_pdf_path env <> temp_out_path env.
Proof.
  unfold final_pdf_path, temp_out_path. apply app_length_ne. discriminate.
Qed.

Lemma temp_output_ne_out : temp_output env <> temp_out_path env.
Proof. unfold temp_output. apply app_ne_self. discriminate. Qed.

Lemma temp_output_ne_in : temp_output env <> temp_in_path env.
Proof.
  unfold temp_output, temp_out_path. rewrite app_assoc_s.
  apply app_ne_self. discriminate.
Qed.

Lemma temp_output_ne_final : temp_output env <> final_pdf_path env.
Proof.
  unfold temp_output, temp_out_path, final_pdf_path. rewrite app_assoc_s.
  apply app_length_ne. discriminate.
Qed.

End Paths.

(** ** The steps of the enhancement stage *)

Section Stage.
Context (env : Env).

Lemma register_fonts_spec l : forall fm w,
  exists fm' w',
    register_fonts env l fm w = (inr fm', w') /\ files w' = files w.
Proof.
  induction l as [|[style [name path]] l IH]; intros fm w.
  - exists fm, w. split; reflexivity.
  - cbn [register_fonts]. exec.
    destruct (bool_decide _).
    + destruct (register_font env name path).
      * destruct (IH fm (World (files w) (calls w ++ [CallRegisterFont name])))
          as (fm' & w' & E & F). exists fm', w'. split; assumption.
      * destruct (IH (fm ++ [(style, name)])
                    (World (files w) (calls w ++ [CallRegisterFont name])))
          as (fm' & w' & E & F). exists fm', w'. split; assumption.
    + apply IH.
Qed.

(** [analyze_fonts_in_pdf] always returns, and leaves the files alone. *)
Lemma analyze_spec (p : string) (w : world) :
  exists w',
    analyze_fonts_in_pdf env p w =
      (inr (analysis_result env p (files w !! p)), w') /\
    files w' = files w.
Proof.
  unfold analyze_fonts_in_pdf, analysis_result. exec.
  destruct (raised (run_process env (font_info_cmd p) (files w !! p)));
    exec; [eexists; split; reflexivity|].
  destruct (raised (run_process env ["pdffonts"; p] (files w !! p)));
    exec; eexists; split; reflexivity.
Qed.

(** [create_pdf_with_icc_profiles] always returns: whatever Ghostscript
    does, the file it renames back or removes is there. *)
Lemma create_pdf_ok : profile_step_ok (create_pdf_with_icc_profiles env).
Proof.
  intros out w.
  assert (Hne : out +:+ ".temp.pdf" <> out) by (apply app_ne_self; discriminate).
  unfold create_pdf_with_icc_profiles. exec.
  destruct (bool_decide _ && bool_decide _).
  - exec. rewrite lookup_insert_eq. exec. rewrite !lookup_insert_eq.
    destruct (written _) as [data|]; exec;
      destruct (raised _) as [e|]; exec;
      simplify_map_eq; exec;
      (eexists; split; [reflexivity|]; cbn [files]; split;
       [intros p Hp1 Hp2; now simplify_map_eq | left; now simplify_map_eq]).
  - eexists; split; [reflexivity|]. cbn [files]. split.
    + intros p Hp1 Hp2. now simplify_map_eq.
    + right. now simplify_map_eq.
Qed.

Lemma skip_step_ok : profile_step_ok (fun _ => ret tt).
Proof.
  intros out w. exists w. split; [reflexivity|]. split; [reflexivity|].
  now right.
Qed.

Lemma unlink_if_exists_spec (p : string) (w : world) :
  exists w', unlink_if_exists p w = (inr tt, w') /\
             files w' = delete p (files w).
Proof.
  unfold unlink_if_exists. exec.
  destruct (files w !! p) as [data|] eqn:E.
  - rewrite bool_decide_eq_true_2 by eauto. exec. rewrite E.
    eexists; split; reflexivity.
  - rewrite bool_decide_eq_false_2 by (intros [? ?]; congruence).
    eexists; split; [reflexivity|]. now rewrite delete_id.
Qed.

Lemma cleanup_spec (l : list string) : forall w,
  exists w', for_each l unlink_if_exists w = (inr tt, w') /\
             files w' = fold_left (fun f p => delete p f) l (files w).
Proof.
  induction l as [|p l IH]; intros w.
  - exists w. split; reflexivity.
  - cbn [for_each fold_left]. exec.
    destruct (unlink_if_exists_spec p w) as (w1 & -> & F1).
    destruct (IH w1) as (w2 & -> & F2).
    exists w2. split; [reflexivity|]. now rewrite F2, F1.
Qed.

(** The stage, for any well-behaved profile step: it returns
    [enhanced_bytes], and what it leaves on disk was there before. *)
Lemma enhance_with_spec (step : string -> M unit) (input : bytes) (w : world) :
  profile_step_ok step ->
  exists w',
    enhance_with env step input w =
      (inr (enhanced_bytes env (files w !! final_pdf_path env) input), w') /\
    files w' ⊆ files w /\
    files w' !! temp_in_path env = None /\
    files w' !! temp_out_path env = None /\
    files w' !! final_pdf_path env = None.
Proof.
  intros Hstep.
  pose proof (temp_out_ne_in env) as N1.
  pose proof (final_ne_in env) as N2.
  pose proof (final_ne_out env) as N3.
  pose proof (temp_output_ne_out env) as N4.
  pose proof (temp_output_ne_in env) as N5.
  pose proof (temp_output_ne_final env) as N6.
  unfold temp_output in *.
  unfold enhance_with, register_liberation_fonts. exec.
  destruct (register_fonts_spec liberation_fonts []
              (World (<[temp_in_path env := input]> (files w))
                 (calls w ++ [CallTempFile (temp_in_path env)])))
    as (fm & w1 & -> & F1). cbn [files] in F1.
  destruct (analyze_spec (temp_in_path env) w1) as (w2 & -> & F2).
  destruct (Hstep (temp_out_path env) w2) as (w3 & -> & F3 & T3).
  assert (I1 : files w1 !! temp_in_path env = Some input)
    by (rewrite F1; apply lookup_insert_eq).
  assert (I3 : files w3 !! temp_in_path env = Some input)
    by (rewrite F3, F2 by auto; exact I1).
  assert (S3 : files w3 !! final_pdf_path env = files w !! final_pdf_path env)
    by (rewrite F3, F2, F1 by auto; now apply lookup_insert_ne).
  assert (K : forall w4 : world,
             (forall p, p <> final_pdf_path env ->
                        files w4 !! p = files w3 !! p) ->
             let f := fold_left (fun f p => delete p f)
                        [temp_in_path env; temp_out_path env;
                         temp_in_path env +:+ ".final.pdf"] (files w4) in
             f ⊆ files w /\
             f !! temp_in_path env = None /\
             f !! temp_out_path env = None /\
             f !! final_pdf_path env = None).
  { intros w4 H4. fold (final_pdf_path env). cbn [fold_left]. split.
    - apply map_subseteq_spec. intros p x Hp.
      destruct (decide (p = final_pdf_path env)) as [->|Q1];
        [now rewrite lookup_delete_eq in Hp|].
      rewrite lookup_delete_ne in Hp by auto.
      destruct (decide (p = temp_out_path env)) as [->|Q2];
        [now rewrite lookup_delete_eq in Hp|].
      rewrite lookup_delete_ne in Hp by auto.
      destruct (decide (p = temp_in_path env)) as [->|Q3];
        [now rewrite lookup_delete_eq in Hp|].
      rewrite lookup_delete_ne in Hp by auto.
      rewrite H4 in Hp by auto.
      destruct (decide (p = temp_out_path env +:+ ".temp.pdf")) as [->|Q4].
      + destruct T3 as [T3|T3]; rewrite T3 in Hp; [discriminate|].
        rewrite F2, F1, lookup_insert_ne in Hp by auto. exact Hp.
      + rewrite F3, F2, F1, lookup_insert_ne in Hp by auto. exact Hp.
    - repeat split; now simplify_map_eq. }
  rewrite I1, I3. fold (final_outcome env input).
  unfold enhanced_bytes.
  destruct (final_outcome env input) as [r so wr]. cbn [raised written stdout].
  destruct r as [e|], wr as [data|]; exec;
    rewrite ?lookup_insert_eq, ?S3;
    try destruct (files w !! final_pdf_path env) as [stale|];
    edestruct cleanup_spec as (w5 & -> & F5);
    (eexists; split; [reflexivity|]); rewrite F5; cbn [files];
    first
      [ exact (K w3 (fun _ _ => eq_refl))
      | refine (K (World (<[final_pdf_path env:=data]> (files w3)) []) _);
        intros p Hp; cbn [files]; now apply lookup_insert_ne ].
Qed.

End Stage.

(** ** Which calls a computation makes *)

Section Calls.
Context (Q : call -> Prop).

Lemma calls_only_pure {A} (m : M A) :
  (forall w, calls (snd (m w)) = calls w) -> calls_only Q m.
Proof.
  intros H w. exists []. rewrite H, app_nil_r. split; [reflexivity|constructor].
Qed.

Lemma calls_only_ret {A} (a : A) : calls_only Q (ret a).
Proof. now apply calls_only_pure. Qed.

Lemma calls_only_lift {A} (r : result A) : calls_only Q (lift r).
Proof. now apply calls_only_pure. Qed.

Lemma calls_only_exists p : calls_only Q (os_path_exists p).
Proof. now apply calls_only_pure. Qed.

Lemma calls_only_write p d : calls_only Q (write_file p d).
Proof. now apply calls_only_pure. Qed.

Lemma calls_only_rename p q : calls_only Q (os_rename p q).
Proof.
  apply calls_only_pure. intros w. unfold os_rename.
  now destruct (files w !! p).
Qed.

Lemma calls_only_remove p : calls_only Q (os_remove p).
Proof.
  apply calls_only_pure. intros w. unfold os_remove.
  now destruct (files w !! p).
Qed.

Lemma calls_only_log c : Q c -> calls_only Q (log_call c).
Proof. intros H w. exists [c]. split; [reflexivity|]. now constructor. Qed.

Lemma calls_only_bind {A B} (m : M A) (k : A -> M B) :
  calls_only Q m -> (forall a, calls_only Q (k a)) -> calls_only Q (bind m k).
Proof.
  intros Hm Hk w. unfold bind.
  destruct (Hm w) as (n1 & E1 & F1).
  destruct (m w) as [[e|a] w1]; cbn [snd] in *.
  - exists n1. split; assumption.
  - destruct (Hk a w1) as (n2 & E2 & F2).
    exists (n1 ++ n2). rewrite E2, E1, app_assoc. split; [reflexivity|].
    now apply Forall_app.
Qed.

Lemma calls_only_try_except {A} (m : M A) (h : exn -> M A) :
  calls_only Q m -> (forall e, calls_only Q (h e)) ->
  calls_only Q (try_except m h).
Proof.
  intros Hm Hh w. unfold try_except.
  destruct (Hm w) as (n1 & E1 & F1).
  destruct (m w) as [[e|a] w1]; cbn [snd] in *.
  - destruct (Hh e w1) as (n2 & E2 & F2).
    exists (n1 ++ n2). rewrite E2, E1, app_assoc. split; [reflexivity|].
    now apply Forall_app.
  - exists n1. split; assumption.
Qed.

Lemma calls_only_try_finally {A} (m : M A) (c : M unit) :
  calls_only Q m -> calls_only Q c -> calls_only Q (try_finally m c).
Proof.
  intros Hm Hc w. unfold try_finally.
  destruct (Hm w) as (n1 & E1 & F1).
  destruct (m w) as [r w1]; cbn [snd] in *.
  destruct (Hc w1) as (n2 & E2 & F2).
  exists (n1 ++ n2).
  destruct (c w1) as [[e|[]] w2]; cbn [snd] in *;
    rewrite E2, E1, app_assoc; (split; [reflexivity|now apply Forall_app]).
Qed.

Lemma calls_only_for_each {A} (l : list A) (body : A -> M unit) :
  (forall x, calls_only Q (body x)) -> calls_only Q (for_each l body).
Proof.
  intros H. induction l as [|x l IH]; cbn [for_each].
  - apply calls_only_ret.
  - apply calls_only_bind; auto.
Qed.

Lemma calls_only_read p : Q (CallOpen p) -> calls_only Q (read_file p).
Proof.
  intros H. unfold read_file. apply calls_only_bind.
  - now apply calls_only_log.
  - intros _. apply calls_only_pure. intros w. now destruct (files w !! p).
Qed.

Lemma calls_only_run env cmd input output :
  Q (CallRun cmd input) -> calls_only Q (subprocess_run env cmd input output).
Proof.
  intros H. unfold subprocess_run. apply calls_only_bind.
  - now apply calls_only_log.
  - intros _. apply calls_only_pure. intros w.
    destruct (run_process env cmd (files w !! input)) as [[e|] so [d|]];
      destruct output; reflexivity.
Qed.

Lemma calls_only_register env l :
  (forall n, Q (CallRegisterFont n)) ->
  forall fm, calls_only Q (register_fonts env l fm).
Proof.
  intros H. induction l as [|[style [name path]] l IH]; intros fm;
    cbn [register_fonts].
  - apply calls_only_ret.
  - apply calls_only_bind; [apply calls_only_exists|].
    intros [|]; [|apply IH].
    apply calls_only_bind; [now apply calls_only_log|].
    intros _. destruct (register_font env name path); apply IH.
Qed.

End Calls.

Create HintDb calls.
#[global] Hint Resolve calls_only_ret calls_only_lift calls_only_exists
  calls_only_write calls_only_rename calls_only_remove : calls.

Ltac calls_step :=
  match goal with
  | |- calls_only _ (bind _ _) => apply calls_only_bind; [|intros ?]
  | |- calls_only _ (try_except _ _) => apply calls_only_try_except; [|intros ?]
  | |- calls_only _ (try_finally _ _) => apply calls_only_try_finally
  | |- calls_only _ (for_each _ _) => apply calls_only_for_each; intros ?
  | |- calls_only _ (if ?b then _ else _) => destruct b
  end.

Ltac calls_leaf :=
  first
    [ apply calls_only_log | apply calls_only_run | apply calls_only_read
    | apply calls_only_register; intros ? ];
  unfold no_read_of; cbn [reads]; congruence.

Lemma new_calls_app (w w' : world) (new : list call) :
  calls w' = calls w ++ new -> new_calls w w' = new.
Proof. intros E. unfold new_calls. rewrite E. apply drop_app_length. Qed.

(** No call of the stage reads the file the profile step produces. *)
Lemma enhance_never_reads_profile_file (env : Env) (input : bytes) :
  calls_only (no_read_of (temp_out_path env))
    (enhance_pdf_for_compliance env input).
Proof.
  pose proof (temp_out_ne_in env) as N1.
  pose proof (final_ne_out env) as N3.
  pose proof (temp_output_ne_out env) as N4.
  unfold temp_output in N4.
  unfold enhance_pdf_for_compliance, enhance_with, register_liberation_fonts,
    analyze_fonts_in_pdf, create_pdf_with_icc_profiles, unlink_if_exists.
  repeat calls_step; auto with calls; calls_leaf.
Qed.

(** ** The substitution directives of the final command *)

Lemma substitute_directive_inj (f g : string) :
  substitute_directive f = substitute_directive g -> f = g.
Proof.
  unfold substitute_directive. intros E.
  apply String.app_inj in E. now apply app_inj_r in E.
Qed.

Lemma last_char_directive (f : string) :
  Py.last_char (substitute_directive f) = Some "s"%char.
Proof.
  unfold substitute_directive.
  rewrite last_char_app.
  - now rewrite last_char_app.
  - intros E. apply (f_equal String.length) in E.
    rewrite length_app in E. cbn in E. lia.
Qed.


Lemma fold_add_substitution (l : list string) : forall base,
  fold_left add_substitution l base =
  base ++ map substitute_directive (List.filter is_helvetica_or_arial l).
Proof.
  induction l as [|f l IH]; intros base; cbn [fold_left List.filter].
  - now rewrite app_nil_r.
  - rewrite IH. unfold add_substitution.
    destruct (is_helvetica_or_arial f); [|reflexivity].
    cbn [map]. now rewrite <- app_assoc.
Qed.


(** The final command does not name the file of the profile step. *)
Lemma final_cmd_omits_profile_file (env : Env) (fonts : gset string) :
  ~ In (temp_out_path env)
      (final_gs_cmd fonts (final_pdf_path env) (temp_in_path env)).
Proof.
  assert (L : Py.last_char (temp_out_path env) = Some "f"%char)
    by (unfold temp_out_path; now rewrite last_char_app).
  assert (Hbase : ~ In (temp_out_path env) gs_base).
  { unfold gs_base. cbn [In]. intros H.
    repeat destruct H as [H|H]; try exact H;
      apply (f_equal Py.last_char) in H; rewrite L in H; discriminate H. }
  assert (Hdir : forall l, ~ In (temp_out_path env) (map substitute_directive l)).
  { intros l H. apply in_map_iff in H as (g & E & _).
    apply (f_equal Py.last_char) in E.
    rewrite last_char_directive, L in E. discriminate E. }
  assert (Hout : "-sOutputFile=" +:+ final_pdf_path env <> temp_out_path env).
  { intros E. apply (f_equal String.length) in E.
    unfold final_pdf_path, temp_out_path in E.
    rewrite !length_app in E. cbn in E. lia. }
  pose proof (temp_out_ne_in env) as Hin.
  unfold final_gs_cmd. rewrite in_app_iff. cbn [In].
  case_bool_decide as Hempty.
  - intros [H|[H|[H|[]]]]; [now apply Hbase | congruence | congruence].
  - rewrite fold_add_substitution, in_app_iff.
    intros [[H|H]|[H|[H|[]]]];
      [now apply Hbase | now apply (Hdir _ H) | congruence | congruence].
Qed.

(** ** The handler, case by case *)

Section Handler.
Context (env : Env).

Lemma lambda_handler_body_error (event : json) (e : exn) (w : world) :
  request_body env event = inl e ->
  lambda_handler env event w = (inr (failure_response e), w).
Proof.
  unfold request_body, lambda_handler. exec.
  destruct (py_get event "body" (JStr "{}")) as [e0|raw]; exec.
  - now intros [= ->].
  - intros ->. reflexivity.
Qed.

Lemma lambda_handler_not_object (event body : json) (w : world) :
  request_body env event = inr body ->
  (forall items, body <> JObj items) ->
  exists e, lambda_handler env event w = (inr (failure_response e), w).
Proof.
  unfold request_body, lambda_handler. exec.
  destruct (py_get event "body" (JStr "{}")) as [e0|raw]; [discriminate|].
  intros -> H. exec.
  destruct body; try (eexists; reflexivity).
  now destruct (H items).
Qed.

Lemma lambda_handler_missing (event : json) (items : list (string * json))
    (w : world) :
  request_body env event = inr (JObj items) ->
  truthy (payload items "pdfBase64") = false \/
  truthy (payload items "xmlBase64") = false ->
  lambda_handler env event w = (inr missing_data_response, w).
Proof.
  unfold request_body, lambda_handler, payload, option_value. exec.
  destruct (py_get event "body" (JStr "{}")) as [e0|raw]; [discriminate|].
  intros -> H. exec. cbn [py_get]. exec.
  destruct H as [-> | ->]; cbn [negb orb]; [reflexivity|].
  now rewrite orb_true_r.
Qed.

Lemma lambda_handler_process (event : json) (items : list (string * json))
    (w : world) :
  request_body env event = inr (JObj items) ->
  truthy (payload items "pdfBase64") = true ->
  truthy (payload items "xmlBase64") = true ->
  lambda_handler env event w =
  process env (payload items "pdfBase64") (payload items "xmlBase64")
    (option_value items "checkXsd" (JBool true))
    (option_value items "flavor" (JStr "factur-x"))
    (option_value items "level" (JStr "en16931")) w.
Proof.
  unfold request_body, lambda_handler, process, payload, option_value. exec.
  destruct (py_get event "body" (JStr "{}")) as [e0|raw]; [discriminate|].
  intros -> H1 H2. exec. cbn [py_get]. exec.
  rewrite H1, H2. cbn [negb orb]. reflexivity.
Qed.

Lemma b64decode_value_str (v : json) (b : bytes) :
  b64decode_value v = inr b -> exists s, v = JStr s.
Proof. destruct v; try discriminate. eauto. Qed.

Lemma process_cases (pdf xml check_xsd flavor level : json) (w : world) :
  exists r w',
    process env pdf xml check_xsd flavor level w = (inr r, w') /\
    files w' ⊆ files w /\
    ((exists e, r = failure_response e) \/
     (exists b, r = success_response (Base64.b64encode b))).
Proof.
  unfold process. exec.
  destruct (py_len pdf); exec; [eexists _, _; eauto 6|].
  destruct (py_len xml); exec; [eexists _, _; eauto 6|].
  destruct (b64decode_value pdf) as [?|pb]; exec; [eexists _, _; eauto 6|].
  destruct (b64decode_value xml) as [?|xb]; exec; [eexists _, _; eauto 6|].
  destruct (generate_from_binary env pb xb check_xsd flavor level) as [?|fx];
    exec; [eexists _, _; eauto 6|].
  unfold enhance_pdf_for_compliance.
  edestruct (enhance_with_spec env (create_pdf_with_icc_profiles env) fx)
    as (w' & -> & Hsub & _); [apply create_pdf_ok|].
  exec. eexists _, _. split; [reflexivity|]. split; [exact Hsub|]. eauto.
Qed.

Lemma process_embedding_fails (pdf xml check_xsd flavor level : json)
    (pb xb : bytes) (e : exn) (w : world) :
  b64decode_value pdf = inr pb ->
  b64decode_value xml = inr xb ->
  generate_from_binary env pb xb check_xsd flavor level = inl e ->
  exists w',
    process env pdf xml check_xsd flavor level w =
      (inr (failure_response e), w') /\
    files w' = files w.
Proof.
  intros Hp Hx Hg.
  destruct (b64decode_value_str _ _ Hp) as [s1 ->].
  destruct (b64decode_value_str _ _ Hx) as [s2 ->].
  unfold process. exec. cbn [py_len]. exec. rewrite Hp. exec.
  rewrite Hx. exec. rewrite Hg. exec.
  eexists. split; reflexivity.
Qed.

Lemma process_bad_base64 (s1 s2 : string) (check_xsd flavor level : json)
    (w : world) :
  (exists e, Base64.b64decode s1 = inl e) \/
  (exists e, Base64.b64decode s2 = inl e) ->
  exists e w',
    process env (JStr s1) (JStr s2) check_xsd flavor level w =
      (inr (failure_response e), w') /\
    files w' = files w.
Proof.
  intros H. unfold process. exec. cbn [py_len b64decode_value]. exec.
  destruct (Base64.b64decode s1) as [e1|pb] eqn:E1; exec.
  - eexists _, _. split; reflexivity.
  - destruct H as [[e H]|[e H]]; [discriminate|]. rewrite H. exec.
    eexists _, _. split; reflexivity.
Qed.

(** Every invocation returns one of the three responses, and what it leaves
    on disk was there before. *)
Lemma lambda_handler_cases (event : json) (w : world) :
  exists r w',
    lambda_handler env event w = (inr r, w') /\
    files w' ⊆ files w /\
    (r = missing_data_response \/
     (exists e, r = failure_response e) \/
     (exists b, r = success_response (Base64.b64encode b))).
Proof.
  destruct (request_body env event) as [e|body] eqn:Hb.
  - rewrite (lambda_handler_body_error _ _ _ Hb). eexists _, _. eauto 6.
  - destruct body as [| | | | |items];
      try (edestruct (lambda_handler_not_object event _ w Hb) as [e ->];
           [discriminate | eexists _, _; eauto 6]).
    destruct (truthy (payload items "pdfBase64")) eqn:T1;
      [|rewrite (lambda_handler_missing _ _ _ Hb) by auto;
        eexists _, _; eauto 6].
    destruct (truthy (payload items "xmlBase64")) eqn:T2;
      [|rewrite (lambda_handler_missing _ _ _ Hb) by auto;
        eexists _, _; eauto 6].
    rewrite (lambda_handler_process _ _ _ Hb T1 T2).
    edestruct process_cases as (r & w' & -> & Hsub & Hr).
    eexists _, _. eauto 6.
Qed.

End Handler.

Lemma payload_absent (items : list (string * json)) (k : string) :
  assoc k items = None -> truthy (payload items k) = false.
Proof. intros H. unfold payload, option_value. now rewrite H. Qed.

Lemma payload_empty (items : list (string * json)) (k : string) :
  assoc k items = Some (JStr "") -> truthy (payload items k) = false.
Proof. intros H. unfold payload, option_value. now rewrite H. Qed.

Lemma payload_nonempty_string (items : list (string * json)) (k s : string) :
  payload items k = JStr s -> s <> "" -> truthy (payload items k) = true.
Proof. intros -> H. destruct s; [contradiction | reflexivity]. Qed.

(** * The claims of the specification *)

(** ** C1 *)

(** C1: for every input byte string the compliance-enhancement stage
    returns some byte string (no exception reaches its caller), and when the
    final Ghostscript rewrite fails (the program raises, or leaves no file to
    read back) it returns exactly the input bytes. *)
Theorem enhance_falls_back_and_never_raises
    (env : Env) (input : bytes) (w : world) :
  exists b,
    fst (enhance_pdf_for_compliance env input w) = inr b /\
    (final_rewrite_fails env w input -> b = input).
Proof.
  unfold enhance_pdf_for_compliance.
  destruct (enhance_with_spec env (create_pdf_with_icc_profiles env) input w
              (create_pdf_ok env)) as (w' & E & _).
  rewrite E. eexists. split; [reflexivity|].
  unfold final_rewrite_fails, enhanced_bytes.
  intros [[e He]|[Hw Hf]].
  - now rewrite He.
  - rewrite Hw, Hf. now destruct (raised (final_outcome env input)).
Qed.

Lemma enhance_falls_back_witness :
  final_rewrite_fails (sample_env embed_ok tools_missing) profiles_world
    pdf_magic /\
  exists b,
    fst (enhance_pdf_for_compliance (sample_env embed_ok tools_missing)
           pdf_magic profiles_world) = inr b /\
    b = pdf_magic.
Proof.
  assert (H : final_rewrite_fails (sample_env embed_ok tools_missing)
                profiles_world pdf_magic)
    by (left; vm_compute; eauto).
  split; [exact H|].
  destruct (enhance_falls_back_and_never_raises
              (sample_env embed_ok tools_missing) pdf_magic profiles_world)
    as (b & E & F).
  exists b. split; [exact E | exact (F H)].
Defined.

(** ** C2 *)

(** C2, as stated, fails: a body whose [pdfBase64] is the number 5 lacks a
    non-empty [pdfBase64] string, and the handler answers 500, not 400. *)
Lemma missing_payload_counterexample :
  ~ has_nonempty_string
      (request_body (sample_env embed_ok tools_missing)
         (event_with_body (request_text "5" (quoted "PHgvPg=="))))
      "pdfBase64" /\
  lambda_handler (sample_env embed_ok tools_missing)
    (event_with_body (request_text "5" (quoted "PHgvPg=="))) empty_world
    = (inr (failure_response
              (Exn "TypeError" "object of type 'int' has no len()")),
       empty_world) /\
  ~ rejects_every_request_lacking_a_payload.
Proof.
  assert (L : ~ has_nonempty_string
                (request_body (sample_env embed_ok tools_missing)
                   (event_with_body (request_text "5" (quoted "PHgvPg=="))))
                "pdfBase64").
  { intros (items & s & Hb & Ha & _).
    vm_compute in Hb. injection Hb as <-. discriminate Ha. }
  split; [exact L|]. split; [vm_compute; reflexivity|].
  intros claim.
  destruct (claim (sample_env embed_ok tools_missing)
              (event_with_body (request_text "5" (quoted "PHgvPg==")))
              empty_world (or_introl L)) as (r & w' & E & S).
  vm_compute in E. injection E as <- _. discriminate S.
Qed.

(** C2, amended: when the body is a JSON object (an absent body counts as
    the empty object) in which [pdfBase64] or [xmlBase64] is absent or has a
    false truth value, the handler returns the 400 response and leaves the
    world as it was: no call was made and no file was written. *)
Theorem falsy_payload_is_rejected
    (env : Env) (event : json) (items : list (string * json)) (w : world) :
  request_body env event = inr (JObj items) ->
  truthy (payload items "pdfBase64") = false \/
  truthy (payload items "xmlBase64") = false ->
  lambda_handler env event w = (inr missing_data_response, w) /\
  statusCode missing_data_response = 400%Z /\
  response_field missing_data_response "error" =
    Some (JStr "Missing PDF or XML data").
Proof.
  intros Hb Hf. split; [|split; reflexivity].
  now apply lambda_handler_missing with (items := items).
Qed.

Lemma falsy_payload_witness :
  lambda_handler (sample_env embed_ok tools_missing) (JObj []) profiles_world
    = (inr missing_data_response, profiles_world) /\
  statusCode missing_data_response = 400%Z /\
  response_field missing_data_response "error" =
    Some (JStr "Missing PDF or XML data").
Proof.
  apply (falsy_payload_is_rejected (sample_env embed_ok tools_missing)
           (JObj []) [] profiles_world).
  - reflexivity.
  - left. apply payload_absent. reflexivity.
Defined.

(** ** C3 *)

(** C3: on every path of the handler, what is on disk when it returns was
    on disk, with the same contents, when it was called; and the
    enhancement stage leaves none of its three working files behind. *)
Theorem temporary_files_are_removed
    (env : Env) (event : json) (input : bytes) (w : world) :
  files (snd (lambda_handler env event w)) ⊆ files w /\
  files (snd (enhance_pdf_for_compliance env input w)) ⊆ files w /\
  files (snd (enhance_pdf_for_compliance env input w)) !! temp_in_path env
    = None /\
  files (snd (enhance_pdf_for_compliance env input w)) !! temp_out_path env
    = None /\
  files (snd (enhance_pdf_for_compliance env input w)) !! final_pdf_path env
    = None.
Proof.
  split.
  - destruct (lambda_handler_cases env event w) as (r & w' & -> & Hsub & _).
    exact Hsub.
  - unfold enhance_pdf_for_compliance.
    destruct (enhance_with_spec env (create_pdf_with_icc_profiles env) input w
                (create_pdf_ok env)) as (w' & -> & H).
    exact H.
Qed.

(** ** C4 *)

(** C4: the stage returns the same bytes as the stage without the profile
    step; no call of the stage reads the file that step produces; and the
    final command does not name it. *)
Theorem profile_step_is_discarded
    (env : Env) (input : bytes) (fonts : gset string) (w : world) :
  fst (enhance_pdf_for_compliance env input w) =
    fst (enhance_without_profile_step env input w) /\
  Forall (no_read_of (temp_out_path env))
    (new_calls w (snd (enhance_pdf_for_compliance env input w))) /\
  ~ In (temp_out_path env)
      (final_gs_cmd fonts (final_pdf_path env) (temp_in_path env)).
Proof.
  split; [|split].
  - unfold enhance_pdf_for_compliance, enhance_without_profile_step.
    destruct (enhance_with_spec env (create_pdf_with_icc_profiles env) input w
                (create_pdf_ok env)) as (w1 & -> & _).
    destruct (enhance_with_spec env (fun _ => ret tt) input w skip_step_ok)
      as (w2 & -> & _).
    reflexivity.
  - destruct (enhance_never_reads_profile_file env input w) as (new & E & F).
    now rewrite (new_calls_app _ _ _ E).
  - apply final_cmd_omits_profile_file.
Qed.

(** ** C5 *)

(** C5 does not hold of the code: on a table as [pdffonts] prints it, the
    parser looks at the eighth word of a row, which is not the [emb]
    column.  It misses Helvetica (not embedded) and reports an embedded
    font whose [uni] column reads no. *)
Theorem analyze_fonts_reads_wrong_column :
  fst (analyze_fonts_in_pdf (sample_env embed_ok tools_inspect) "/tmp/in.pdf"
         empty_world) = inr {[ "ABCDEF+Foo" ]} /\
  non_embedded_by_column pdffonts_sample = {[ "Helvetica" ]}.
Proof.
  split.
  - destruct (analyze_spec (sample_env embed_ok tools_inspect) "/tmp/in.pdf"
                empty_world) as (w' & -> & _).
    cbn [fst]. vm_compute. reflexivity.
  - vm_compute. reflexivity.
Qed.

(** ** C6 *)


(** ** C7 *)

(** C7: [analyze_fonts_in_pdf] always returns a set, and the empty set
    when either program raises (it is missing, or exits non-zero). *)
Theorem analyze_fonts_degrades_to_empty
    (env : Env) (pdf_path : string) (w : world) :
  exists fonts,
    fst (analyze_fonts_in_pdf env pdf_path w) = inr fonts /\
    (is_Some (raised (run_process env (font_info_cmd pdf_path)
                        (files w !! pdf_path))) \/
     is_Some (raised (run_process env ["pdffonts"; pdf_path]
                        (files w !! pdf_path))) ->
     fonts = ∅).
Proof.
  destruct (analyze_spec env pdf_path w) as (w' & -> & _).
  eexists. split; [reflexivity|].
  unfold analysis_result. intros [[e He]|[e He]].
  - now rewrite He.
  - destruct (raised (run_process env (font_info_cmd pdf_path) _));
      [reflexivity | now rewrite He].
Qed.

Lemma analyze_fonts_degrades_witness :
  exists fonts,
    fst (analyze_fonts_in_pdf (sample_env embed_ok tools_missing)
           "/tmp/in.pdf" empty_world) = inr fonts /\
    fonts = ∅.
Proof.
  destruct (analyze_fonts_degrades_to_empty
              (sample_env embed_ok tools_missing) "/tmp/in.pdf" empty_world)
    as (fonts & E & F).
  exists fonts. split; [exact E|].
  apply F. left. vm_compute. eauto.
Defined.

(** ** C8 *)

(** C8: when both payloads pass validation and decode, and the embedding
    raises, the handler answers 500 with an error string that ends in the
    exception's message, and with no PDF. *)
Theorem embedding_failure_is_reported
    (env : Env) (event : json) (items : list (string * json))
    (pdf_binary xml_binary : bytes) (e : exn) (w : world) :
  request_body env event = inr (JObj items) ->
  truthy (payload items "pdfBase64") = true ->
  truthy (payload items "xmlBase64") = true ->
  b64decode_value (payload items "pdfBase64") = inr pdf_binary ->
  b64decode_value (payload items "xmlBase64") = inr xml_binary ->
  generate_from_binary env pdf_binary xml_binary
    (option_value items "checkXsd" (JBool true))
    (option_value items "flavor" (JStr "factur-x"))
    (option_value items "level" (JStr "en16931")) = inl e ->
  exists r w',
    lambda_handler env event w = (inr r, w') /\
    statusCode r = 500%Z /\
    response_field r "error" =
      Some (JStr ("Failed to generate Factur-X PDF: " +:+ exn_str e)) /\
    Py.contains (exn_str e)
      ("Failed to generate Factur-X PDF: " +:+ exn_str e) = true /\
    response_field r "pdfBase64" = None /\
    files w' = files w.
Proof.
  intros Hb T1 T2 D1 D2 G.
  rewrite (lambda_handler_process env _ _ _ Hb T1 T2).
  destruct (process_embedding_fails env _ _ _ _ _ _ _ _ w D1 D2 G)
    as (w' & -> & F).
  exists (failure_response e), w'.
  repeat split; try reflexivity; [apply contains_suffix | exact F].
Qed.

Lemma embedding_failure_witness :
  exists r w',
    lambda_handler (sample_env embed_fails tools_missing)
      (event_with_body (request_text (quoted "JVBERg==") (quoted "PHgvPg==")))
      empty_world = (inr r, w') /\
    statusCode r = 500%Z /\
    response_field r "error" =
      Some (JStr ("Failed to generate Factur-X PDF: " +:+
                  "The XML file is not valid against the official XML Schema Definition")) /\
    Py.contains
      "The XML file is not valid against the official XML Schema Definition"
      ("Failed to generate Factur-X PDF: " +:+
       "The XML file is not valid against the official XML Schema Definition")
      = true /\
    response_field r "pdfBase64" = None /\
    files w' = files empty_world.
Proof.
  apply (embedding_failure_is_reported (sample_env embed_fails tools_missing)
           (event_with_body
              (request_text (quoted "JVBERg==") (quoted "PHgvPg==")))
           [("pdfBase64", JStr "JVBERg=="); ("xmlBase64", JStr "PHgvPg==")]
           pdf_magic [x3c; x78; x2f; x3e]
           (Exn "Exception"
              "The XML file is not valid against the official XML Schema Definition")
           empty_world); reflexivity.
Defined.

(** ** C9 *)

(** C9: the [pdfBase64] of a success response decodes, and encoding the
    decoded bytes gives the same string back. *)
Theorem response_base64_is_canonical
    (env : Env) (event : json) (w : world) (r : response) (s : string) :
  fst (lambda_handler env event w) = inr r ->
  statusCode r = 200%Z ->
  response_field r "pdfBase64" = Some (JStr s) ->
  exists data, Base64.b64decode s = inr data /\ Base64.b64encode data = s.
Proof.
  intros E S F.
  destruct (lambda_handler_cases env event w)
    as (r' & w' & E' & _ & [->|[[e ->]|[b ->]]]);
    rewrite E' in E; injection E as <-; try discriminate S.
  injection F as <-. exists b. split; [apply b64decode_b64encode | reflexivity].
Qed.

Lemma response_base64_witness :
  exists data,
    Base64.b64decode "JVBERg==" = inr data /\
    Base64.b64encode data = "JVBERg==".
Proof.
  apply (response_base64_is_canonical (sample_env embed_ok tools_missing)
           (event_with_body
              (request_text (quoted "JVBERg==") (quoted "PHgvPg==")))
           profiles_world
           (success_response "JVBERg==") "JVBERg==").
  - vm_compute. reflexivity.
  - reflexivity.
  - reflexivity.
Defined.

(** ** C10 *)

(** ** What the lenient decoder rejects is not valid base64 *)

Lemma index_of_bound (c : ascii) (l : list ascii) : forall i n,
  Base64.index_of c l i = Some n -> (i <= n < i + N.of_nat (length l))%N.
Proof.
  induction l as [|x l IH]; intros i n; cbn [Base64.index_of length].
  - discriminate.
  - destruct (Ascii.eqb x c).
    + intros [= <-]. lia.
    + intros H. apply IH in H. lia.
Qed.

Lemma index_of_nth (c : ascii) (l : list ascii) : forall i n,
  Base64.index_of c l i = Some n ->
  nth (N.to_nat (n - i)) l Base64.pad = c.
Proof.
  induction l as [|x l IH]; intros i n; cbn [Base64.index_of].
  - discriminate.
  - destruct (Ascii.eqb x c) eqn:E.
    + intros [= <-]. rewrite N.sub_diag. now apply Ascii.eqb_eq.
    + intros H. pose proof (index_of_bound _ _ _ _ H) as B.
      apply IH in H.
      replace (N.to_nat (n - i)) with (S (N.to_nat (n - N.succ i))) by lia.
      exact H.
Qed.

Lemma is_data_spec (c : ascii) :
  is_data c = true ->
  exists v, Base64.table_a2b c = Some v /\ (v < 64)%N /\
            Ascii.eqb c Base64.pad = false /\ Base64.is_ascii c = true.
Proof.
  unfold is_data, Base64.table_a2b.
  destruct (Base64.index_of c Base64.alphabet 0) as [v|] eqn:E; [|discriminate].
  intros _. exists v. split; [reflexivity|].
  pose proof (index_of_bound _ _ _ _ E) as B.
  assert (Hv : (v < 64)%N) by (cbn in B; lia).
  split; [exact Hv|].
  apply index_of_nth in E. rewrite N.sub_0_r in E.
  change (Base64.table_b2a v = c) in E. subst c.
  destruct (table_roundtrip v Hv) as (_ & H1 & H2). auto.
Qed.

Lemma a2b_data_quad (st : Base64.dstate) (v : N) :
  (Base64.quad_pos st < 4)%N ->
  Base64.quad_pos (Base64.a2b_data st v) = ((Base64.quad_pos st + 1) mod 4)%N /\
  Base64.pads (Base64.a2b_data st v) = 0%N.
Proof.
  intros H. unfold Base64.a2b_data.
  assert (C : Base64.quad_pos st = 0%N \/ Base64.quad_pos st = 1%N \/
              Base64.quad_pos st = 2%N \/ Base64.quad_pos st = 3%N) by lia.
  destruct C as [E|[E|[E|E]]]; rewrite E; split; reflexivity.
Qed.

Lemma skip_data_length (cs : list ascii) :
  length (skip_data cs) <= length cs.
Proof.
  induction cs as [|x cs IH]; cbn [skip_data]; [lia|].
  destruct (is_data x); cbn [length]; lia.
Qed.

(** The decoder runs through the data characters and keeps count. *)
Lemma a2b_loop_skip_data (cs : list ascii) : forall st,
  (Base64.quad_pos st < 4)%N ->
  exists st',
    Base64.a2b_loop cs st = Base64.a2b_loop (skip_data cs) st' /\
    Base64.quad_pos st' =
      ((Base64.quad_pos st
        + N.of_nat (length cs - length (skip_data cs))) mod 4)%N /\
    (st' = st \/ Base64.pads st' = 0%N).
Proof.
  induction cs as [|c cs IH]; intros st Hq.
  - exists st. cbn. rewrite N.add_0_r, N.mod_small by lia. auto.
  - cbn [skip_data]. destruct (is_data c) eqn:D.
    + destruct (is_data_spec c D) as (v & Hv & _ & Hp & _).
      destruct (a2b_data_quad st v Hq) as [Q1 Q2].
      destruct (IH (Base64.a2b_data st v)) as (st' & E & Q & P).
      { rewrite Q1. apply N.mod_lt. lia. }
      exists st'. cbn [Base64.a2b_loop]. rewrite Hp, Hv.
      split; [exact E|].
      pose proof (skip_data_length cs) as L. split.
      * rewrite Q, Q1. cbn [length].
        replace (N.of_nat (S (length cs) - length (skip_data cs)))
          with (1 + N.of_nat (length cs - length (skip_data cs)))%N by lia.
        rewrite N.add_assoc. now rewrite N.Div0.add_mod_idemp_l.
      * right. destruct P as [->|P]; assumption.
    + exists st. replace (length (c :: cs) - length (c :: cs)) with 0 by lia.
      rewrite N.add_0_r, N.mod_small by lia. auto.
Qed.

Lemma skip_data_ascii (cs : list ascii) :
  forallb Base64.is_ascii (skip_data cs) = true ->
  forallb Base64.is_ascii cs = true.
Proof.
  induction cs as [|c cs IH]; cbn [skip_data]; [auto|].
  destruct (is_data c) eqn:D; [|auto].
  intros H. cbn [forallb]. destruct (is_data_spec c D) as (_ & _ & _ & _ & A).
  rewrite A. now apply IH.
Qed.

(** Valid base64 always decodes: what the handler's decoder rejects is
    not valid base64. *)
Lemma valid_base64_decodes (s : string) :
  valid_base64 s = true -> exists b, Base64.b64decode s = inr b.
Proof.
  unfold valid_base64, Base64.b64decode.
  set (cs := list_ascii_of_string s).
  intros H. apply andb_prop in H as [Hl Ht]. apply Nat.eqb_eq in Hl.
  destruct (a2b_loop_skip_data cs (Base64.DState 0 0 0 [])) as (st & E & Q & P);
    [cbn; lia|].
  cbn [Base64.quad_pos] in Q. rewrite N.add_0_l in Q.
  pose proof (skip_data_length cs) as L.
  pose proof (Nat.div_mod_eq (length cs) 4) as Dm. rewrite Hl in Dm.
  assert (Hp : Base64.pads st = 0%N)
    by (destruct P as [->|P]; [reflexivity|exact P]).
  rewrite E.
  destruct (skip_data cs) as [|p [|q [|r rest]]] eqn:Hs.
  - rewrite (skip_data_ascii cs) by (rewrite Hs; reflexivity).
    cbn [Base64.a2b_loop]. unfold Base64.a2b_finish.
    cbn [length] in Q. rewrite Nat.sub_0_r in Q.
    replace (N.of_nat (length cs))
      with (N.of_nat (length cs / 4) * 4)%N in Q by lia.
    rewrite N.Div0.mod_mul in Q. rewrite Q. cbn. eauto.
  - apply Ascii.eqb_eq in Ht. subst p.
    rewrite (skip_data_ascii cs) by (rewrite Hs; reflexivity).
    cbn [Base64.a2b_loop]. rewrite Ascii.eqb_refl.
    cbn [length] in Q, L.
    replace (N.of_nat (length cs - 1))
      with (3 + N.of_nat (length cs / 4 - 1) * 4)%N in Q by lia.
    rewrite N.Div0.mod_add in Q. rewrite Q.
    change (3 mod 4)%N with 3%N.
    replace (2 <=? 3)%N with true by reflexivity.
    replace (4 <=? 3 + (Base64.pads st + 1))%N with true
      by (symmetry; apply N.leb_le; lia).
    eauto.
  - apply andb_prop in Ht as [Hp1 Hp2].
    apply Ascii.eqb_eq in Hp1, Hp2. subst p q.
    rewrite (skip_data_ascii cs) by (rewrite Hs; reflexivity).
    cbn [Base64.a2b_loop]. rewrite Ascii.eqb_refl.
    cbn [length] in Q, L.
    replace (N.of_nat (length cs - 2))
      with (2 + N.of_nat (length cs / 4 - 1) * 4)%N in Q by lia.
    rewrite N.Div0.mod_add in Q. rewrite Q, Hp.
    cbn. eauto.
  - discriminate Ht.
Qed.

Lemma rejected_is_not_valid (s : string) (e : exn) :
  Base64.b64decode s = inl e -> valid_base64 s = false.
Proof.
  intros H. destruct (valid_base64 s) eqn:V; [|reflexivity].
  destruct (valid_base64_decodes s V) as [b Hb]. congruence.
Qed.

Lemma undecodable_is_not_valid (env : Env) (event : json) :
  undecodable_base64_payload env event -> not_valid_base64_payload env event.
Proof.
  intros (items & s1 & s2 & Hb & P1 & N1 & P2 & N2 & [[e He]|[e He]]);
    exists items, s1, s2; repeat (split; [assumption|]);
    [left | right]; exact (rejected_is_not_valid _ _ He).
Qed.

(** C10, as stated, fails: the payload [JV*BE Rg==AAAA] is not valid
    base64, yet [base64.b64decode] skips the star and the blank, stops at
    the pad and returns the four bytes of [%PDF]; the request is answered
    200, not 500. *)
Lemma lenient_base64_counterexample :
  valid_base64 lenient_payload = false /\
  Base64.b64decode lenient_payload = inr pdf_magic /\
  not_valid_base64_payload lenient_env (event_with_body lenient_text) /\
  fst (lambda_handler lenient_env (event_with_body lenient_text) empty_world)
    = inr (success_response "JVBERg==") /\
  ~ answers_500_to_every_invalid_encoding.
Proof.
  assert (N : not_valid_base64_payload lenient_env
                (event_with_body lenient_text)).
  { exists [("pdfBase64", JStr lenient_payload);
            ("xmlBase64", JStr "PHgvPg==")], lenient_payload, "PHgvPg==".
    repeat split; try discriminate. left. reflexivity. }
  assert (R : fst (lambda_handler lenient_env (event_with_body lenient_text)
                     empty_world) = inr (success_response "JVBERg=="))
    by (vm_compute; reflexivity).
  split; [reflexivity|]. split; [reflexivity|]. split; [exact N|].
  split; [exact R|].
  intros claim.
  destruct (claim lenient_env (event_with_body lenient_text) empty_world
              (or_intror N)) as (r & w' & E & S).
  rewrite E in R. cbn [fst] in R. injection R as ->. discriminate S.
Qed.

(** C10, amended: a body that is not valid JSON, and a request whose two
    payloads are non-empty strings of which one makes [base64.b64decode]
    raise, get the 500 response (not the 400 one), and nothing is
    written. *)
Theorem invalid_input_is_a_server_error
    (env : Env) (event : json) (w : world) :
  invalid_json_body env event \/ undecodable_base64_payload env event ->
  exists e w',
    lambda_handler env event w = (inr (failure_response e), w') /\
    statusCode (failure_response e) = 500%Z /\
    response_field (failure_response e) "error" =
      Some (JStr ("Failed to generate Factur-X PDF: " +:+ exn_str e)) /\
    files w' = files w.
Proof.
  intros [(raw & e & Hg & Hl)|(items & s1 & s2 & Hb & P1 & N1 & P2 & N2 & Hd)].
  - exists e, w. split; [|repeat split].
    apply lambda_handler_body_error. unfold request_body. rewrite Hg.
    exact Hl.
  - rewrite (lambda_handler_process env _ _ _ Hb
               (payload_nonempty_string _ _ _ P1 N1)
               (payload_nonempty_string _ _ _ P2 N2)).
    rewrite P1, P2.
    destruct (process_bad_base64 env s1 s2
                (option_value items "checkXsd" (JBool true))
                (option_value items "flavor" (JStr "factur-x"))
                (option_value items "level" (JStr "en16931")) w Hd)
      as (e & w' & -> & F).
    exists e, w'. repeat split. exact F.
Qed.

Lemma invalid_input_witness :
  (exists e w',
     lambda_handler (sample_env embed_ok tools_missing)
       (event_with_body "{not json") empty_world
       = (inr (failure_response e), w') /\
     statusCode (failure_response e) = 500%Z /\
     response_field (failure_response e) "error" =
       Some (JStr ("Failed to generate Factur-X PDF: " +:+ exn_str e)) /\
     files w' = files empty_world) /\
  (exists e w',
     lambda_handler (sample_env embed_ok tools_missing)
       (event_with_body (request_text (quoted "JVBER") (quoted "PHgvPg==")))
       empty_world
       = (inr (failure_response e), w') /\
     statusCode (failure_response e) = 500%Z /\
     response_field (failure_response e) "error" =
       Some (JStr ("Failed to generate Factur-X PDF: " +:+ exn_str e)) /\
     files w' = files empty_world).
Proof.
  split.
  - apply invalid_input_is_a_server_error. left.
    exists "{not json", (Exn "JSONDecodeError"
                           "Expecting value: line 1 column 1 (char 0)").
    split; reflexivity.
  - apply invalid_input_is_a_server_error. right.
    exists [("pdfBase64", JStr "JVBER"); ("xmlBase64", JStr "PHgvPg==")],
      "JVBER", "PHgvPg==".
    repeat split; try discriminate.
    left. eexists. vm_compute. reflexivity.
Defined.

(** * Worked examples *)

Example b64encode_man : Base64.b64encode [x4d; x61; x6e; x21] = "TWFuIQ==".
Proof. reflexivity. Qed.

(** The decoder skips what is not in the alphabet. *)
Example b64decode_skips_blanks :
  Base64.b64decode "TWFu IQ==" = inr [x4d; x61; x6e; x21].
Proof. reflexivity. Qed.

Example b64decode_bad_length :
  Base64.b64decode "JVBER" =
  inl (Exn "binascii.Error"
         "Invalid base64-encoded string: number of data characters (5) cannot be 1 more than a multiple of 4").
Proof. reflexivity. Qed.

Example split_ws_row :
  Py.split_ws "Helvetica      Type 1    WinAnsi   no  no  no       8  0" =
  ["Helvetica"; "Type"; "1"; "WinAnsi"; "no"; "no"; "no"; "8"; "0"].
Proof. reflexivity. Qed.

Example final_cmd_example :
  final_gs_cmd {[ "Helvetica"; "Times-Roman" ]}
    "/tmp/x.pdf.final.pdf" "/tmp/x.pdf" =
  gs_base ++ [ "-dSubstituteFontName=/Helvetica/LiberationSans";
               "-sOutputFile=/tmp/x.pdf.final.pdf"; "/tmp/x.pdf" ].
Proof. vm_compute. reflexivity. Qed.

(** A whole request with every program at work: the response carries what
    Ghostscript wrote, and the disk is as before. *)
Example handler_success :
  fst (lambda_handler (sample_env embed_ok tools_rewrite)
         (event_with_body
            (request_text (quoted "JVBERg==") (quoted "PHgvPg==")))
         profiles_world)
    = inr (success_response (Base64.b64encode (pdf_magic ++ [x0a]))) /\
  files (snd (lambda_handler (sample_env embed_ok tools_rewrite)
                (event_with_body
                   (request_text (quoted "JVBERg==") (quoted "PHgvPg==")))
                profiles_world))
    = files profiles_world.
Proof. split; vm_compute; reflexivity. Qed.

(** * Properties beyond the claims *)

(** ** Font registration *)

Lemma register_fonts_mapping (env : Env) l : forall fm w,
  exists fm' w',
    register_fonts env l fm w = (inr fm', w') /\
    files w' = files w /\
    forall style name,
      In (style, name) fm' <->
      In (style, name) fm \/
      exists path,
        In (style, (name, path)) l /\
        is_Some (files w !! path) /\
        register_font env name path = None.
Proof.
  induction l as [|[st [nm pa]] l IH]; intros fm w.
  - exists fm, w. split; [reflexivity|]. split; [reflexivity|].
    intros style name. split; [auto|]. intros [H|(path & [] & _)]. exact H.
  - cbn [register_fonts]. exec.
    destruct (files w !! pa) as [data|] eqn:Hpa.
    + rewrite bool_decide_eq_true_2 by eauto.
      destruct (register_font env nm pa) as [e|] eqn:Hreg.
      * destruct (IH fm (World (files w) (calls w ++ [CallRegisterFont nm])))
          as (fm' & w' & -> & F & Hin).
        exists fm', w'. split; [reflexivity|]. split; [exact F|].
        intros style name. rewrite Hin. cbn [files]. split.
        -- intros [H|(path & H1 & H2)]; [auto|]. right. exists path.
           split; [now right | exact H2].
        -- intros [H|(path & [H1|H1] & H2 & H3)]; [auto| |].
           ++ injection H1 as -> -> ->. congruence.
           ++ right. exists path. auto.
      * destruct (IH (fm ++ [(st, nm)])
                    (World (files w) (calls w ++ [CallRegisterFont nm])))
          as (fm' & w' & -> & F & Hin).
        exists fm', w'. split; [reflexivity|]. split; [exact F|].
        intros style name. rewrite Hin, in_app_iff. cbn [files In]. split.
        -- intros [[H|[H|[]]]|(path & H1 & H2)]; [auto| |].
           ++ injection H as -> ->. right. exists pa.
              split; [now left|]. split; [eauto | exact Hreg].
           ++ right. exists path. split; [now right | exact H2].
        -- intros [H|(path & [H1|H1] & H2 & H3)]; [auto| |].
           ++ injection H1 as -> -> ->. left. right. now left.
           ++ right. exists path. auto.
    + rewrite bool_decide_eq_false_2 by (intros [? ?]; congruence).
      destruct (IH fm w) as (fm' & w' & -> & F & Hin).
      exists fm', w'. split; [reflexivity|]. split; [exact F|].
      intros style name. rewrite Hin. split.
      * intros [H|(path & H1 & H2)]; [auto|]. right. exists path.
        split; [now right | exact H2].
      * intros [H|(path & [H1|H1] & H2 & H3)]; [auto| |].
        -- injection H1 as -> -> ->. destruct H2 as [? H2]. congruence.
        -- right. exists path. auto.
Qed.

(** X1: [register_liberation_fonts] never raises and changes no file;
    a style is mapped to its font exactly when the font file exists and its
    registration does not raise. *)
Theorem registered_fonts_are_the_usable_ones (env : Env) (w : world) :
  exists font_mapping w',
    register_liberation_fonts env w = (inr font_mapping, w') /\
    files w' = files w /\
    forall style name,
      In (style, name) font_mapping <->
      exists path,
        In (style, (name, path)) liberation_fonts /\
        is_Some (files w !! path) /\
        register_font env name path = None.
Proof.
  unfold register_liberation_fonts.
  destruct (register_fonts_mapping env liberation_fonts [] w)
    as (fm & w' & E & F & H).
  exists fm, w'. split; [exact E|]. split; [exact F|].
  intros style name. rewrite H. split.
  - intros [[]|H']. exact H'.
  - intros H'. now right.
Qed.

(** ** The profile step, branch by branch *)

Lemma scratch_ne_output (out : string) : out +:+ ".temp.pdf" <> out.
Proof. apply app_ne_self. discriminate. Qed.

(** X2: when an ICC profile is missing, the profile step only writes the
    ReportLab placeholder to its output path; Ghostscript is not run. *)
Theorem profile_step_without_profiles
    (env : Env) (output_path : string) (w : world) :
  files w !! srgb_profile = None \/ files w !! gray_profile = None ->
  output_path <> srgb_profile -> output_path <> gray_profile ->
  exists w',
    create_pdf_with_icc_profiles env output_path w = (inr tt, w') /\
    files w' = <[output_path := placeholder env]> (files w) /\
    new_calls w w' = [CallCanvas output_path].
Proof.
  intros H N1 N2.
  unfold create_pdf_with_icc_profiles. exec.
  rewrite !lookup_insert_ne by auto.
  assert (B : bool_decide (is_Some (files w !! srgb_profile))
              && bool_decide (is_Some (files w !! gray_profile)) = false).
  { destruct H as [H|H]; rewrite H.
    - rewrite bool_decide_eq_false_2 by (intros [? ?]; discriminate).
      reflexivity.
    - rewrite (bool_decide_eq_false_2 (is_Some None))
        by (intros [? ?]; discriminate).
      apply andb_false_r. }
  rewrite B. eexists. split; [reflexivity|]. split; [reflexivity|].
  now apply new_calls_app.
Qed.

Lemma profile_step_without_profiles_witness :
  exists w',
    create_pdf_with_icc_profiles (sample_env embed_ok tools_missing)
      "/tmp/a.pdf" empty_world = (inr tt, w') /\
    files w' = <[ "/tmp/a.pdf" := placeholder (sample_env embed_ok tools_missing)]>
                 (files empty_world) /\
    new_calls empty_world w' = [CallCanvas "/tmp/a.pdf"].
Proof.
  apply (profile_step_without_profiles (sample_env embed_ok tools_missing)
           "/tmp/a.pdf" empty_world).
  - left. reflexivity.
  - discriminate.
  - discriminate.
Defined.

Lemma profile_step_taken (env : Env) (output_path : string) (w : world) :
  is_Some (files w !! srgb_profile) ->
  is_Some (files w !! gray_profile) ->
  exists w',
    create_pdf_with_icc_profiles env output_path w = (inr tt, w') /\
    files w' !! (output_path +:+ ".temp.pdf") = None /\
    files w' !! output_path =
      match raised (run_process env
                      (icc_cmd output_path (output_path +:+ ".temp.pdf"))
                      (Some (placeholder env))) with
      | Some _ => Some (placeholder env)
      | None =>
          written (run_process env
                     (icc_cmd output_path (output_path +:+ ".temp.pdf"))
                     (Some (placeholder env)))
      end /\
    (forall p, p <> output_path -> p <> output_path +:+ ".temp.pdf" ->
               files w' !! p = files w !! p) /\
    new_calls w w' =
      [CallCanvas output_path;
       CallRun (icc_cmd output_path (output_path +:+ ".temp.pdf"))
         (output_path +:+ ".temp.pdf")].
Proof.
  intros H1 H2.
  pose proof (scratch_ne_output output_path) as Hne.
  unfold create_pdf_with_icc_profiles. exec.
  assert (B : bool_decide
                (is_Some (<[output_path:=placeholder env]> (files w)
                          !! srgb_profile))
              && bool_decide
                   (is_Some (<[output_path:=placeholder env]> (files w)
                             !! gray_profile)) = true).
  { apply andb_true_iff. split; apply bool_decide_eq_true_2.
    - destruct (decide (output_path = srgb_profile)) as [->|];
        [rewrite lookup_insert_eq; eauto | now rewrite lookup_insert_ne].
    - destruct (decide (output_path = gray_profile)) as [->|];
        [rewrite lookup_insert_eq; eauto | now rewrite lookup_insert_ne]. }
  fold (placeholder env). rewrite B. exec.
  rewrite lookup_insert_eq. exec. rewrite !lookup_insert_eq.
  destruct (run_process env _ (Some (placeholder env))) as [r so wr].
  cbn [raised written stdout].
  destruct wr as [data|], r as [e|]; exec; simplify_map_eq; exec;
    (eexists; split; [reflexivity|]); cbn [files];
    (split; [now simplify_map_eq|]);
    (split; [now simplify_map_eq|]);
    (split; [intros p P1 P2; now simplify_map_eq|]);
    apply new_calls_app; cbn [calls]; now rewrite <- app_assoc.
Qed.

Section Branches.
Context (env : Env) (output_path : string) (w : world).

(** X3: with both profiles present, when Ghostscript raises the output
    path holds the placeholder again (whatever Ghostscript left there) and
    the scratch file is gone. *)
Theorem profile_step_restores_placeholder (e : exn) :
  is_Some (files w !! srgb_profile) ->
  is_Some (files w !! gray_profile) ->
  raised (run_process env
            (icc_cmd output_path (output_path +:+ ".temp.pdf"))
            (Some (placeholder env))) = Some e ->
  exists w',
    create_pdf_with_icc_profiles env output_path w = (inr tt, w') /\
    files w' !! output_path = Some (placeholder env) /\
    files w' !! (output_path +:+ ".temp.pdf") = None.
Proof.
  intros H1 H2 Hr.
  destruct (profile_step_taken env output_path w H1 H2)
    as (w' & E & Ht & Ho & _).
  exists w'. split; [exact E|]. split; [|exact Ht].
  rewrite Ho. now rewrite Hr.
Qed.

(** X4: with both profiles present, when Ghostscript returns the output
    path holds exactly what Ghostscript wrote (nothing, if it wrote
    nothing), the scratch file is removed, and Ghostscript ran once on the
    scratch file. *)
Theorem profile_step_keeps_ghostscript_output :
  is_Some (files w !! srgb_profile) ->
  is_Some (files w !! gray_profile) ->
  raised (run_process env
            (icc_cmd output_path (output_path +:+ ".temp.pdf"))
            (Some (placeholder env))) = None ->
  exists w',
    create_pdf_with_icc_profiles env output_path w = (inr tt, w') /\
    files w' !! output_path =
      written (run_process env
                 (icc_cmd output_path (output_path +:+ ".temp.pdf"))
                 (Some (placeholder env))) /\
    files w' !! (output_path +:+ ".temp.pdf") = None /\
    new_calls w w' =
      [CallCanvas output_path;
       CallRun (icc_cmd output_path (output_path +:+ ".temp.pdf"))
         (output_path +:+ ".temp.pdf")].
Proof.
  intros H1 H2 Hr.
  destruct (profile_step_taken env output_path w H1 H2)
    as (w' & E & Ht & Ho & _ & Hc).
  exists w'. split; [exact E|]. split; [|split; [exact Ht | exact Hc]].
  rewrite Ho. now rewrite Hr.
Qed.
End Branches.

Lemma profile_step_restores_witness :
  exists w',
    create_pdf_with_icc_profiles (sample_env embed_ok tools_missing)
      "/tmp/a.pdf" profiles_world = (inr tt, w') /\
    files w' !! "/tmp/a.pdf"
      = Some (placeholder (sample_env embed_ok tools_missing)) /\
    files w' !! ("/tmp/a.pdf" +:+ ".temp.pdf") = None.
Proof.
  apply (profile_step_restores_placeholder
           (sample_env embed_ok tools_missing) "/tmp/a.pdf" profiles_world
           (Exn "FileNotFoundError"
              "[Errno 2] No such file or directory: 'gs'")).
  - vm_compute. eauto.
  - vm_compute. eauto.
  - reflexivity.
Defined.

Lemma profile_step_keeps_witness :
  exists w',
    create_pdf_with_icc_profiles (sample_env embed_ok tools_rewrite)
      "/tmp/a.pdf" profiles_world = (inr tt, w') /\
    files w' !! "/tmp/a.pdf" =
      written (run_process (sample_env embed_ok tools_rewrite)
                 (icc_cmd "/tmp/a.pdf" ("/tmp/a.pdf" +:+ ".temp.pdf"))
                 (Some (placeholder (sample_env embed_ok tools_rewrite)))) /\
    files w' !! ("/tmp/a.pdf" +:+ ".temp.pdf") = None /\
    new_calls profiles_world w' =
      [CallCanvas "/tmp/a.pdf";
       CallRun (icc_cmd "/tmp/a.pdf" ("/tmp/a.pdf" +:+ ".temp.pdf"))
         ("/tmp/a.pdf" +:+ ".temp.pdf")].
Proof.
  apply (profile_step_keeps_ghostscript_output
           (sample_env embed_ok tools_rewrite) "/tmp/a.pdf" profiles_world).
  - vm_compute. eauto.
  - vm_compute. eauto.
  - reflexivity.
Defined.


(** ** Blank lines and words *)

Lemma lstrip_empty (s : string) : Py.lstrip s = "" <-> all_space s = true.
Proof.
  induction s as [|c s IH]; cbn [Py.lstrip all_space]; [easy|].
  destruct (Py.isspace c); cbn [andb]; [exact IH|]. split; discriminate.
Qed.

Lemma lstrip_head (s : string) :
  Py.lstrip s = "" \/
  exists c t, Py.lstrip s = String c t /\ Py.isspace c = false.
Proof.
  induction s as [|c s IH]; cbn [Py.lstrip]; [now left|].
  destruct (Py.isspace c) eqn:E; [exact IH|]. right. eauto.
Qed.

Lemma all_space_rev_app (s acc : string) :
  all_space (String.rev_app s acc) = all_space s && all_space acc.
Proof.
  revert acc. induction s as [|c s IH]; intros acc; cbn [String.rev_app all_space].
  - reflexivity.
  - rewrite IH. cbn [all_space].
    destruct (Py.isspace c), (all_space s), (all_space acc); reflexivity.
Qed.

Lemma rev_app_empty (s acc : string) :
  String.rev_app s acc = "" -> s = "" /\ acc = "".
Proof.
  revert acc. induction s as [|c s IH]; intros acc; cbn [String.rev_app].
  - auto.
  - intros H. apply IH in H as [_ H]. discriminate H.
Qed.

Lemma strip_empty (s : string) : Py.strip s = "" <-> all_space s = true.
Proof.
  unfold Py.strip, String.rev. split.
  - intros H. apply rev_app_empty in H as [H _].
    apply lstrip_empty in H. rewrite all_space_rev_app in H.
    apply andb_prop in H as [H _].
    destruct (lstrip_head s) as [E|(c & t & E & Hc)].
    + now apply lstrip_empty.
    + rewrite E in H. cbn [all_space] in H. now rewrite Hc in H.
  - intros H. apply lstrip_empty in H. rewrite H. reflexivity.
Qed.

Lemma split_ws_all_space (s : string) : all_space s = true -> Py.split_ws s = [].
Proof.
  induction s as [|c s IH]; cbn [all_space Py.split_ws]; [reflexivity|].
  intros H. apply andb_prop in H as [Hc Hs]. rewrite Hc. now apply IH.
Qed.

(** A line with a word on it is not blank. *)
Lemma words_not_blank (s w : string) :
  Py.split_ws s !! 0%nat = Some w -> Py.nonempty (Py.strip s) = true.
Proof.
  intros H. destruct (Py.strip s) eqn:E; [|reflexivity].
  apply strip_empty, split_ws_all_space in E. rewrite E in H. discriminate H.
Qed.

(** ** What [parse_pdffonts] reports *)

Lemma parse_line_spec (acc : gset string) (line font : string) :
  font ∈ parse_line acc line <-> font ∈ acc \/ reported_by line font.
Proof.
  unfold parse_line, reported_by.
  destruct (Py.split_ws line !! 7%nat) as [emb|] eqn:E7.
  - destruct (Py.split_ws line !! 0%nat) as [name|] eqn:E0.
    + rewrite (words_not_blank _ _ E0).
      destruct (Py.contains "no" (Py.lower emb)) eqn:C.
      * rewrite elem_of_union, elem_of_singleton. split.
        -- intros [->|H]; [right; eauto | now left].
        -- intros [H|(emb' & [= ->] & _)]; auto.
      * split; [auto|]. intros [H|(emb' & _ & [= <-] & H)]; [exact H|].
        congruence.
    + destruct (Py.nonempty _);
        (split; [auto | intros [H|(emb' & H & _)]; [exact H | discriminate H]]).
  - destruct (Py.nonempty _);
      (split; [auto | intros [H|(emb' & _ & H & _)]; [exact H | discriminate H]]).
Qed.

Lemma fold_parse_line_spec (lines : list string) : forall acc font,
  font ∈ fold_left parse_line lines acc <->
  font ∈ acc \/ exists line, In line lines /\ reported_by line font.
Proof.
  induction lines as [|l lines IH]; intros acc font; cbn [fold_left In].
  - split; [auto | intros [H|(line & [] & _)]; exact H].
  - rewrite IH, parse_line_spec. split.
    + intros [[H|H]|(line & H1 & H2)]; eauto.
    + intros [H|(line & [<-|H1] & H2)]; eauto.
Qed.

(** X5: a font is reported exactly when some line after the first two has
    at least eight words, its eighth word contains [no] in any case, and the
    font is its first word. *)
Theorem parse_pdffonts_reports (font_details font : string) :
  font ∈ parse_pdffonts font_details <->
  exists line emb,
    In line (drop 2 (Py.split_on newline font_details)) /\
    Py.split_ws line !! 0%nat = Some font /\
    Py.split_ws line !! 7%nat = Some emb /\
    Py.contains "no" (Py.lower emb) = true.
Proof.
  unfold parse_pdffonts. rewrite fold_parse_line_spec. unfold reported_by.
  split.
  - intros [H|(line & H1 & emb & H2)]; [now apply not_elem_of_empty in H|].
    eauto.
  - intros (line & emb & H1 & H2). right. eauto.
Qed.

(** ** Header lines *)

Lemma split_on_line (c : ascii) (a b : string) :
  has_char c a = false ->
  Py.split_on c (a +:+ String c b) = a :: Py.split_on c b.
Proof.
  induction a as [|x a IH]; intros H.
  - rewrite app_nil_s. cbn [Py.split_on]. now rewrite Ascii.eqb_refl.
  - cbn [has_char] in H. apply orb_false_elim in H as [Hx Ha].
    rewrite app_cons_s. cbn [Py.split_on]. rewrite Hx, (IH Ha). reflexivity.
Qed.

(** X6: the first two lines never contribute: two outputs that differ only
    in them give the same set. *)
Theorem parse_pdffonts_ignores_header_lines (h1 h2 k1 k2 rest : string) :
  has_char newline h1 = false ->
  has_char newline h2 = false ->
  has_char newline k1 = false ->
  has_char newline k2 = false ->
  parse_pdffonts (h1 +:+ String newline (h2 +:+ String newline rest)) =
  parse_pdffonts (k1 +:+ String newline (k2 +:+ String newline rest)).
Proof.
  intros H1 H2 K1 K2. unfold parse_pdffonts.
  rewrite (split_on_line _ _ _ H1), (split_on_line _ _ _ H2).
  rewrite (split_on_line _ _ _ K1), (split_on_line _ _ _ K2).
  reflexivity.
Qed.

Lemma parse_pdffonts_ignores_header_witness :
  parse_pdffonts
    ("Arial a b c d e f no" +:+
     String newline ("Helvetica a b c d e f no" +:+ String newline
                       "Courier a b c d e f no")) =
  parse_pdffonts
    ("name" +:+ String newline ("----" +:+ String newline
                                  "Courier a b c d e f no")).
Proof.
  apply (parse_pdffonts_ignores_header_lines
           "Arial a b c d e f no" "Helvetica a b c d e f no" "name" "----"
           "Courier a b c d e f no"); reflexivity.
Defined.

(** ** Font inspection: which programs run *)

(** X7: when both programs return, the result is the parse of what
    [pdffonts] printed (what Ghostscript printed is not used), no file
    changes, and the two programs ran once each, Ghostscript first. *)
Theorem analyze_fonts_uses_pdffonts_output
    (env : Env) (pdf_path : string) (w : world) :
  raised (run_process env (font_info_cmd pdf_path) (files w !! pdf_path))
    = None ->
  raised (run_process env ["pdffonts"; pdf_path] (files w !! pdf_path))
    = None ->
  exists w',
    analyze_fonts_in_pdf env pdf_path w =
      (inr (parse_pdffonts
              (stdout (run_process env ["pdffonts"; pdf_path]
                         (files w !! pdf_path)))), w') /\
    files w' = files w /\
    new_calls w w' =
      [CallRun (font_info_cmd pdf_path) pdf_path;
       CallRun ["pdffonts"; pdf_path] pdf_path].
Proof.
  intros H1 H2. unfold analyze_fonts_in_pdf. exec.
  rewrite H1. exec. rewrite H2. exec.
  eexists. split; [reflexivity|]. split; [reflexivity|].
  apply new_calls_app. cbn [calls]. now rewrite <- app_assoc.
Qed.

(** X8: when the Ghostscript run raises, [pdffonts] is not run at all. *)
Theorem analyze_fonts_stops_after_ghostscript_failure
    (env : Env) (pdf_path : string) (e : exn) (w : world) :
  raised (run_process env (font_info_cmd pdf_path) (files w !! pdf_path))
    = Some e ->
  exists w',
    analyze_fonts_in_pdf env pdf_path w = (inr ∅, w') /\
    files w' = files w /\
    new_calls w w' = [CallRun (font_info_cmd pdf_path) pdf_path].
Proof.
  intros H. unfold analyze_fonts_in_pdf. exec. rewrite H. exec.
  eexists. split; [reflexivity|]. split; [reflexivity|].
  now apply new_calls_app.
Qed.

Lemma analyze_fonts_uses_pdffonts_witness :
  exists w',
    analyze_fonts_in_pdf (sample_env embed_ok tools_inspect) "/tmp/in.pdf"
      empty_world = (inr (parse_pdffonts pdffonts_sample), w') /\
    files w' = files empty_world /\
    new_calls empty_world w' =
      [CallRun (font_info_cmd "/tmp/in.pdf") "/tmp/in.pdf";
       CallRun ["pdffonts"; "/tmp/in.pdf"] "/tmp/in.pdf"].
Proof.
  apply (analyze_fonts_uses_pdffonts_output
           (sample_env embed_ok tools_inspect) "/tmp/in.pdf" empty_world);
    reflexivity.
Defined.

Lemma analyze_fonts_stops_witness :
  exists w',
    analyze_fonts_in_pdf (sample_env embed_ok tools_missing) "/tmp/in.pdf"
      empty_world = (inr ∅, w') /\
    files w' = files empty_world /\
    new_calls empty_world w' =
      [CallRun (font_info_cmd "/tmp/in.pdf") "/tmp/in.pdf"].
Proof.
  apply (analyze_fonts_stops_after_ghostscript_failure
           (sample_env embed_ok tools_missing) "/tmp/in.pdf"
           (Exn "FileNotFoundError"
              "[Errno 2] No such file or directory: 'gs'") empty_world).
  reflexivity.
Defined.


(** ** Which files a computation touches *)

Section Touches.
Context (T : string -> Prop).

Lemma touches_pure {A} (m : M A) :
  (forall w, files (snd (m w)) = files w) -> touches_only T m.
Proof. intros H w p _. now rewrite H. Qed.

Lemma touches_ret {A} (a : A) : touches_only T (ret a).
Proof. now apply touches_pure. Qed.

Lemma touches_log c : touches_only T (log_call c).
Proof. now apply touches_pure. Qed.

Lemma touches_exists p : touches_only T (os_path_exists p).
Proof. now apply touches_pure. Qed.

Lemma touches_write p d : T p -> touches_only T (write_file p d).
Proof.
  intros H w q Hq. cbn. apply lookup_insert_ne. intros ->. contradiction.
Qed.

Lemma touches_rename src dst :
  T src -> T dst -> touches_only T (os_rename src dst).
Proof.
  intros H1 H2 w q Hq. unfold os_rename.
  destruct (files w !! src); [|reflexivity]. cbn.
  rewrite lookup_insert_ne, lookup_delete_ne; congruence.
Qed.

Lemma touches_remove p : T p -> touches_only T (os_remove p).
Proof.
  intros H w q Hq. unfold os_remove.
  destruct (files w !! p); [|reflexivity]. cbn.
  rewrite lookup_delete_ne; congruence.
Qed.

Lemma touches_bind {A B} (m : M A) (k : A -> M B) :
  touches_only T m -> (forall a, touches_only T (k a)) ->
  touches_only T (bind m k).
Proof.
  intros Hm Hk w p Hp. unfold bind. specialize (Hm w p Hp).
  destruct (m w) as [[e|a] w1]; cbn [snd] in *; [exact Hm|].
  now rewrite (Hk a w1 p Hp).
Qed.

Lemma touches_try_except {A} (m : M A) (h : exn -> M A) :
  touches_only T m -> (forall e, touches_only T (h e)) ->
  touches_only T (try_except m h).
Proof.
  intros Hm Hh w p Hp. unfold try_except. specialize (Hm w p Hp).
  destruct (m w) as [[e|a] w1]; cbn [snd] in *; [|exact Hm].
  now rewrite (Hh e w1 p Hp).
Qed.

Lemma touches_try_finally {A} (m : M A) (c : M unit) :
  touches_only T m -> touches_only T c -> touches_only T (try_finally m c).
Proof.
  intros Hm Hc w p Hp. unfold try_finally. specialize (Hm w p Hp).
  destruct (m w) as [r w1]; cbn [snd] in *. specialize (Hc w1 p Hp).
  destruct (c w1) as [[e|[]] w2]; cbn [snd] in *; congruence.
Qed.

Lemma touches_for_each {A} (l : list A) (body : A -> M unit) :
  (forall x, In x l -> touches_only T (body x)) ->
  touches_only T (for_each l body).
Proof.
  induction l as [|x l IH]; intros H; cbn [for_each].
  - apply touches_ret.
  - apply touches_bind; [apply H; now left|].
    intros _. apply IH. intros y Hy. apply H. now right.
Qed.

Lemma touches_read p : touches_only T (read_file p).
Proof.
  unfold read_file. apply touches_bind; [apply touches_log|].
  intros _. apply touches_pure. intros w. now destruct (files w !! p).
Qed.

Lemma touches_run env cmd input output :
  (forall p, output = Some p -> T p) ->
  touches_only T (subprocess_run env cmd input output).
Proof.
  intros H. unfold subprocess_run. apply touches_bind; [apply touches_log|].
  intros _ w q Hq.
  destruct (run_process env cmd (files w !! input)) as [[e|] so [d|]];
    destruct output as [p|]; cbn; try reflexivity;
    apply lookup_insert_ne; intros ->; apply Hq, H; reflexivity.
Qed.

Lemma touches_register env l : forall fm,
  touches_only T (register_fonts env l fm).
Proof.
  induction l as [|[style [name path]] l IH]; intros fm; cbn [register_fonts].
  - apply touches_ret.
  - apply touches_bind; [apply touches_exists|].
    intros [|]; [|apply IH].
    apply touches_bind; [apply touches_log|].
    intros _. destruct (register_font env name path); apply IH.
Qed.

End Touches.

Ltac touches_step :=
  match goal with
  | |- touches_only _ (bind _ _) => apply touches_bind; [|intros ?]
  | |- touches_only _ (try_except _ _) => apply touches_try_except; [|intros ?]
  | |- touches_only _ (try_finally _ _) => apply touches_try_finally
  | |- touches_only _ (if ?b then _ else _) => destruct b
  | |- touches_only _ (ret _) => apply touches_ret
  | |- touches_only _ (log_call _) => apply touches_log
  | |- touches_only _ (os_path_exists _) => apply touches_exists
  | |- touches_only _ (read_file _) => apply touches_read
  | |- touches_only _ (register_fonts _ _ _) => apply touches_register
  end.

Lemma enhance_touches_working_paths (env : Env) (input : bytes) :
  touches_only (fun p => In p (working_paths env))
    (enhance_pdf_for_compliance env input).
Proof.
  assert (W1 : In (temp_in_path env) (working_paths env)) by (cbn; auto).
  assert (W2 : In (temp_out_path env) (working_paths env)) by (cbn; auto).
  assert (W3 : In (final_pdf_path env) (working_paths env)) by (cbn; auto).
  assert (W4 : In (temp_out_path env +:+ ".temp.pdf") (working_paths env))
    by (cbn; auto).
  unfold enhance_pdf_for_compliance, enhance_with, register_liberation_fonts,
    analyze_fonts_in_pdf, create_pdf_with_icc_profiles.
  repeat touches_step;
    try (apply touches_write; assumption);
    try (apply touches_rename; assumption);
    try (apply touches_remove; assumption);
    try (apply touches_run; intros p [= <-]; assumption);
    try (apply touches_run; intros p [=]).
  apply touches_for_each. intros x Hx. unfold unlink_if_exists.
  assert (Wx : In x (working_paths env)).
  { cbn in Hx. fold (final_pdf_path env) in Hx. cbn.
    destruct Hx as [<-|[<-|[<-|[]]]]; auto. }
  repeat touches_step. now apply touches_remove.
Qed.


Lemma touches_lift (T : string -> Prop) {A} (r : result A) :
  touches_only T (lift r).
Proof. now apply touches_pure. Qed.

(** X10: a request changes no file other than its four working paths:
    whatever else is on disk (the bundled fonts and profiles) is as
    before. *)
Theorem handler_leaves_other_files_alone
    (env : Env) (event : json) (w : world) (p : string) :
  ~ In p (working_paths env) ->
  files (snd (lambda_handler env event w)) !! p = files w !! p.
Proof.
  revert w p.
  change (touches_only (fun p => In p (working_paths env))
            (lambda_handler env event)).
  unfold lambda_handler.
  repeat first
    [ touches_step
    | apply touches_lift
    | apply enhance_touches_working_paths ].
Qed.

(** ** Which programs are run *)

Lemma final_cmd_is_gs (fonts : gset string) (out inp : string) :
  exists args, final_gs_cmd fonts out inp = "gs" :: args.
Proof.
  unfold final_gs_cmd. case_bool_decide.
  - eexists. reflexivity.
  - rewrite fold_add_substitution. eexists. reflexivity.
Qed.

Lemma handler_runs_known_programs (env : Env) (event : json) :
  calls_only runs_gs_or_pdffonts (lambda_handler env event).
Proof.
  unfold lambda_handler, enhance_pdf_for_compliance, enhance_with,
    register_liberation_fonts, analyze_fonts_in_pdf,
    create_pdf_with_icc_profiles, unlink_if_exists.
  repeat calls_step; auto with calls;
    try (apply calls_only_lift);
    try (apply calls_only_log; exact I);
    try (apply calls_only_read; exact I);
    try (apply calls_only_register; intros; exact I);
    apply calls_only_run; cbn [runs_gs_or_pdffonts].
  - eexists. left. reflexivity.
  - eexists. right. reflexivity.
  - eexists. left. reflexivity.
  - match goal with
    | |- context [final_gs_cmd ?f ?o ?i] =>
        destruct (final_cmd_is_gs f o i) as [args E]
    end.
    exists args. now left.
Qed.


(** X11: the only programs a request runs are [gs] and [pdffonts]. *)
Theorem handler_runs_only_gs_and_pdffonts
    (env : Env) (event : json) (w : world) :
  Forall runs_gs_or_pdffonts
    (new_calls w (snd (lambda_handler env event w))).
Proof.
  destruct (handler_runs_known_programs env event w) as (new & E & F).
  now rewrite (new_calls_app _ _ _ E).
Qed.

Lemma handler_leaves_profiles_witness :
  files (snd (lambda_handler (sample_env embed_ok tools_rewrite)
                (event_with_body
                   (request_text (quoted "JVBERg==") (quoted "PHgvPg==")))
                profiles_world)) !! srgb_profile
  = files profiles_world !! srgb_profile.
Proof.
  apply (handler_leaves_other_files_alone (sample_env embed_ok tools_rewrite)).
  cbn. intros [H|[H|[H|[H|[]]]]]; discriminate H.
Defined.


(** ** The stage: the rewritten bytes *)

(** X9: when the final Ghostscript run returns and writes a file, the
    stage returns exactly the bytes it wrote. *)
Theorem enhance_returns_rewritten_bytes
    (env : Env) (input data : bytes) (w : world) :
  raised (final_outcome env input) = None ->
  written (final_outcome env input) = Some data ->
  fst (enhance_pdf_for_compliance env input w) = inr data.
Proof.
  intros Hr Hw. unfold enhance_pdf_for_compliance.
  destruct (enhance_with_spec env (create_pdf_with_icc_profiles env) input w
              (create_pdf_ok env)) as (w' & -> & _).
  cbn [fst]. unfold enhanced_bytes. now rewrite Hr, Hw.
Qed.

Lemma enhance_returns_rewritten_witness :
  fst (enhance_pdf_for_compliance (sample_env embed_ok tools_rewrite)
         pdf_magic profiles_world) = inr (pdf_magic ++ [x0a]).
Proof.
  apply (enhance_returns_rewritten_bytes (sample_env embed_ok tools_rewrite)
           pdf_magic (pdf_magic ++ [x0a]) profiles_world).
  - vm_compute. reflexivity.
  - vm_compute. reflexivity.
Defined.

(** X12: the font mapping is never used: the bytes the stage returns do not
    depend on how font registration goes. *)
Theorem font_registration_is_unused
    (env : Env) (rf : string -> string -> option exn)
    (input : bytes) (w : world) :
  fst (enhance_pdf_for_compliance (with_register_font env rf) input w) =
  fst (enhance_pdf_for_compliance env input w).
Proof.
  unfold enhance_pdf_for_compliance.
  destruct (enhance_with_spec env (create_pdf_with_icc_profiles env) input w
              (create_pdf_ok env)) as (w1 & -> & _).
  destruct (enhance_with_spec (with_register_font env rf)
              (create_pdf_with_icc_profiles (with_register_font env rf))
              input w (create_pdf_ok _)) as (w2 & -> & _).
  reflexivity.
Qed.

(** ** The handler's responses *)

(** X13: every invocation returns a response, with the two fixed headers:
    either status 200 with [pdfBase64] and the fixed message and no
    [error], or status 400 or 500 with an [error] string and no
    [pdfBase64]. *)
Theorem handler_always_answers (env : Env) (event : json) (w : world) :
  exists r w',
    lambda_handler env event w = (inr r, w') /\
    headers r = json_headers /\
    ((statusCode r = 200%Z /\
      (exists s, response_field r "pdfBase64" = Some (JStr s)) /\
      response_field r "message" = Some (JStr success_message) /\
      response_field r "error" = None) \/
     ((statusCode r = 400%Z \/ statusCode r = 500%Z) /\
      (exists s, response_field r "error" = Some (JStr s)) /\
      response_field r "pdfBase64" = None)).
Proof.
  destruct (lambda_handler_cases env event w)
    as (r & w' & E & _ & [->|[[e ->]|[b ->]]]);
    eexists _, w'; (split; [exact E|]); (split; [reflexivity|]).
  - right. split; [now left|]. split; [eexists|]; reflexivity.
  - right. split; [now right|]. split; [eexists|]; reflexivity.
  - left. split; [reflexivity|]. split; [eexists; reflexivity|].
    split; reflexivity.
Qed.

(** X14: once both payloads decode and the embedding returns, the answer
    is 200 whatever Ghostscript and [pdffonts] do; the PDF in it decodes to
    the embedder's bytes when the final rewrite fails, and to the rewritten
    bytes when it succeeds. *)
Theorem embedded_pdf_always_gets_200
    (env : Env) (event : json) (items : list (string * json))
    (pdf_binary xml_binary facturx_pdf : bytes) (w : world) :
  request_body env event = inr (JObj items) ->
  truthy (payload items "pdfBase64") = true ->
  truthy (payload items "xmlBase64") = true ->
  b64decode_value (payload items "pdfBase64") = inr pdf_binary ->
  b64decode_value (payload items "xmlBase64") = inr xml_binary ->
  generate_from_binary env pdf_binary xml_binary
    (option_value items "checkXsd" (JBool true))
    (option_value items "flavor" (JStr "factur-x"))
    (option_value items "level" (JStr "en16931")) = inr facturx_pdf ->
  exists b w',
    lambda_handler env event w
      = (inr (success_response (Base64.b64encode b)), w') /\
    Base64.b64decode (Base64.b64encode b) = inr b /\
    (final_rewrite_fails env w facturx_pdf -> b = facturx_pdf) /\
    (forall data,
       raised (final_outcome env facturx_pdf) = None ->
       written (final_outcome env facturx_pdf) = Some data -> b = data).
Proof.
  intros Hb T1 T2 D1 D2 G.
  rewrite (lambda_handler_process env _ _ _ Hb T1 T2).
  destruct (b64decode_value_str _ _ D1) as [s1 E1].
  destruct (b64decode_value_str _ _ D2) as [s2 E2].
  rewrite E1, E2 in *.
  unfold process. exec. cbn [py_len]. exec. rewrite D1. exec. rewrite D2. exec.
  rewrite G. exec. unfold enhance_pdf_for_compliance.
  edestruct (enhance_with_spec env (create_pdf_with_icc_profiles env)
               facturx_pdf) as (w' & -> & _); [apply create_pdf_ok|].
  exec. eexists _, _. split; [reflexivity|].
  split; [apply b64decode_b64encode|].
  unfold final_rewrite_fails, enhanced_bytes. split.
  - intros [[e He]|[Hw Hf]].
    + now rewrite He.
    + rewrite Hw, Hf. now destruct (raised (final_outcome env facturx_pdf)).
  - intros data Hr Hw. now rewrite Hr, Hw.
Qed.

Lemma embedded_pdf_witness :
  exists b w',
    lambda_handler (sample_env embed_ok tools_missing)
      (event_with_body (request_text (quoted "JVBERg==") (quoted "PHgvPg==")))
      profiles_world
      = (inr (success_response (Base64.b64encode b)), w') /\
    Base64.b64decode (Base64.b64encode b) = inr b /\
    (final_rewrite_fails (sample_env embed_ok tools_missing) profiles_world
       pdf_magic -> b = pdf_magic) /\
    (forall data,
       raised (final_outcome (sample_env embed_ok tools_missing) pdf_magic)
         = None ->
       written (final_outcome (sample_env embed_ok tools_missing) pdf_magic)
         = Some data -> b = data).
Proof.
  apply (embedded_pdf_always_gets_200 (sample_env embed_ok tools_missing)
           (event_with_body
              (request_text (quoted "JVBERg==") (quoted "PHgvPg==")))
           [("pdfBase64", JStr "JVBERg=="); ("xmlBase64", JStr "PHgvPg==")]
           pdf_magic [x3c; x78; x2f; x3e] pdf_magic profiles_world);
    reflexivity.
Defined.


(** ** Optional fields *)

Lemma assoc_app (k : string) (l1 l2 : list (string * json)) :
  assoc k (l1 ++ l2) =
  match assoc k l1 with
  | Some v => Some v
  | None => assoc k l2
  end.
Proof.
  induction l1 as [|[k' v] l1 IH]; cbn [assoc app]; [reflexivity|].
  destruct (String.eqb k' k); [reflexivity | exact IH].
Qed.

Lemma option_value_defaults (items : list (string * json)) (k : string)
    (d : json) :
  assoc k default_options = None \/
  (assoc k items = None /\ assoc k default_options = Some d) ->
  option_value (items ++ default_options) k d = option_value items k d.
Proof.
  unfold option_value. rewrite assoc_app.
  intros [H|[H1 H2]].
  - rewrite H. now destruct (assoc k items).
  - now rewrite H1, H2.
Qed.

(** X15: leaving [checkXsd], [flavor] and [level] out is the same as
    sending [true], [factur-x] and [en16931]. *)
Theorem absent_options_take_defaults
    (env : Env) (event event' : json) (items : list (string * json))
    (w : world) :
  request_body env event = inr (JObj items) ->
  request_body env event' = inr (JObj (items ++ default_options)) ->
  assoc "checkXsd" items = None ->
  assoc "flavor" items = None ->
  assoc "level" items = None ->
  lambda_handler env event w = lambda_handler env event' w.
Proof.
  intros Hb Hb' A1 A2 A3.
  assert (P1 : payload (items ++ default_options) "pdfBase64"
               = payload items "pdfBase64")
    by (apply option_value_defaults; now left).
  assert (P2 : payload (items ++ default_options) "xmlBase64"
               = payload items "xmlBase64")
    by (apply option_value_defaults; now left).
  destruct (truthy (payload items "pdfBase64")) eqn:T1.
  - destruct (truthy (payload items "xmlBase64")) eqn:T2.
    + rewrite (lambda_handler_process env _ _ _ Hb T1 T2).
      rewrite (lambda_handler_process env _ _ w Hb')
        by (rewrite ?P1, ?P2; assumption).
      rewrite P1, P2.
      rewrite !option_value_defaults by (right; split; [assumption|reflexivity]).
      reflexivity.
    + rewrite (lambda_handler_missing env _ _ w Hb) by auto.
      rewrite (lambda_handler_missing env _ _ w Hb')
        by (rewrite P2; auto).
      reflexivity.
  - rewrite (lambda_handler_missing env _ _ w Hb) by auto.
    rewrite (lambda_handler_missing env _ _ w Hb') by (rewrite P1; auto).
    reflexivity.
Qed.

(** ** Bodies and payloads of the wrong type *)

(** X16: a body that is valid JSON but not an object is answered 500 with
    the [AttributeError] of [body.get], and nothing else happens. *)
Theorem non_object_body_is_a_server_error
    (env : Env) (event body : json) (w : world) :
  request_body env event = inr body ->
  (forall items, body <> JObj items) ->
  lambda_handler env event w =
  (inr (failure_response
          (Exn "AttributeError"
             ("'" +:+ type_name body +:+ "' object has no attribute 'get'"))),
   w).
Proof.
  unfold request_body, lambda_handler. exec.
  destruct (py_get event "body" (JStr "{}")) as [e0|raw]; [discriminate|].
  intros -> H. exec.
  destruct body; try reflexivity. now destruct (H items).
Qed.

(** X17: when both payloads pass the truth test and one is not a string,
    the answer is 500; at most decoding was attempted: the embedder is not
    called and no file is written. *)
Theorem non_string_payload_is_a_server_error
    (env : Env) (event : json) (items : list (string * json)) (w : world) :
  request_body env event = inr (JObj items) ->
  truthy (payload items "pdfBase64") = true ->
  truthy (payload items "xmlBase64") = true ->
  (forall s, payload items "pdfBase64" <> JStr s) \/
  (forall s, payload items "xmlBase64" <> JStr s) ->
  exists e w',
    lambda_handler env event w = (inr (failure_response e), w') /\
    files w' = files w /\
    Forall is_decode (new_calls w w').
Proof.
  intros Hb T1 T2 H.
  rewrite (lambda_handler_process env _ _ _ Hb T1 T2).
  generalize dependent (payload items "pdfBase64").
  generalize dependent (payload items "xmlBase64").
  intros xml T2 pdf T1 H.
  assert (D : forall l, Forall is_decode l -> forall v,
            Forall is_decode (l ++ [CallB64Decode v]))
    by (intros l Hl v; apply Forall_app; split;
        [exact Hl | repeat constructor]).
  unfold process. exec.
  destruct pdf as [| | |s1| |]; cbn [py_len b64decode_value]; exec;
    try (eexists _, w; split; [reflexivity|]; split; [reflexivity|];
         unfold new_calls; rewrite drop_all; constructor);
    destruct xml as [| | |s2| |]; cbn [py_len b64decode_value]; exec;
    try (eexists _, w; split; [reflexivity|]; split; [reflexivity|];
         unfold new_calls; rewrite drop_all; constructor);
    try (eexists _, _; split; [reflexivity|]; split; [reflexivity|];
         erewrite new_calls_app by reflexivity; repeat constructor).
  - destruct H as [H|H]; [now destruct (H s1) | now destruct (H s2)].
  - destruct (Base64.b64decode s1); exec;
      (eexists _, _; split; [reflexivity|]; split; [reflexivity|]).
    + erewrite new_calls_app by reflexivity. repeat constructor.
    + erewrite new_calls_app by (cbn [calls]; rewrite <- app_assoc; reflexivity).
      repeat constructor.
  - destruct (Base64.b64decode s1); exec;
      (eexists _, _; split; [reflexivity|]; split; [reflexivity|]).
    + erewrite new_calls_app by reflexivity. repeat constructor.
    + erewrite new_calls_app by (cbn [calls]; rewrite <- app_assoc; reflexivity).
      repeat constructor.
Qed.

(** ** The shape of the final command *)

(** X18: the final command is the eight fixed arguments, then one
    directive for each non-embedded font with helvetica or arial in its
    name, none twice, then the output argument and the input path; with no
    such font it is the fixed arguments and the two paths. *)
Theorem final_cmd_shape (fonts : gset string) (out inp : string) :
  final_gs_cmd fonts out inp =
    gs_base
    ++ map substitute_directive
         (List.filter is_helvetica_or_arial (elements fonts))
    ++ ["-sOutputFile=" +:+ out; inp] /\
  List.NoDup (map substitute_directive
                (List.filter is_helvetica_or_arial (elements fonts))).
Proof.
  split.
  - unfold final_gs_cmd. case_bool_decide as He.
    + subst fonts. rewrite elements_empty. reflexivity.
    + rewrite fold_add_substitution. now rewrite <- app_assoc.
  - apply Finite.Injective_map_NoDup.
    + intros f g. apply substitute_directive_inj.
    + apply List.NoDup_filter. apply NoDup_ListNoDup, NoDup_elements.
Qed.

Lemma absent_options_witness :
  lambda_handler options_env
    (event_with_body (request_text (quoted "JVBERg==") (quoted "PHgvPg==")))
    profiles_world
  = lambda_handler options_env (event_with_body options_text) profiles_world.
Proof.
  apply (absent_options_take_defaults options_env _ _
           [("pdfBase64", JStr "JVBERg=="); ("xmlBase64", JStr "PHgvPg==")]);
    reflexivity.
Defined.

Lemma non_object_body_witness :
  lambda_handler (sample_env embed_ok tools_missing) (event_with_body "[]")
    profiles_world =
  (inr (failure_response
          (Exn "AttributeError"
             ("'" +:+ type_name (JArr []) +:+ "' object has no attribute 'get'"))),
   profiles_world).
Proof.
  apply (non_object_body_is_a_server_error
           (sample_env embed_ok tools_missing) (event_with_body "[]")
           (JArr []) profiles_world).
  - reflexivity.
  - discriminate.
Defined.

Lemma non_string_payload_witness :
  exists e w',
    lambda_handler (sample_env embed_ok tools_missing)
      (event_with_body (request_text "5" (quoted "PHgvPg==")))
      profiles_world = (inr (failure_response e), w') /\
    files w' = files profiles_world /\
    Forall is_decode (new_calls profiles_world w').
Proof.
  apply (non_string_payload_is_a_server_error
           (sample_env embed_ok tools_missing)
           (event_with_body (request_text "5" (quoted "PHgvPg==")))
           [("pdfBase64", JNum 5); ("xmlBase64", JStr "PHgvPg==")]
           profiles_world).
  - reflexivity.
  - reflexivity.
  - reflexivity.
  - left. discriminate.
Defined.
